(** * Value-locked NFT front end: mint, redeem and wallet components

    A shallow embedding of the TypeScript sources of the repository
    (Mint.tsx, Redeem.tsx, Navbar.tsx, WalletContext.tsx) together with the
    parts of the mint/redeem protocol that the specification describes and
    that live in the Python scripts mintV4.py / redeemV4.py.

    - [JS]       : the JavaScript data the components compute with
                   (binary64 numbers, values, truthiness, JSON documents).
    - [Browser]  : the effects a component can perform, the recorded
                   exchanges with the outside world, and the monad the
                   async handlers run in.
    - [Mint]     : Mint.tsx ([base64ToTxn], [uint8ToBase64], [handleSubmit]).
    - [Redeem]   : Redeem.tsx ([fetchNFTs], [handleBurn], the rendered view).
    - [Wallet]   : WalletContext.tsx and Navbar.tsx.
    - [Protocol] : payout computation and the atomic redemption group.
    - [Trace]    : what is read off the events of a run (the calls made,
                   the report of success, the first request).
    - [Sample]   : a concrete host, backend, wallet and form.
    - [Observe]  : what a run carries, asks for and ends with.
    - [Bar]      : the navigation bar as the user sees and clicks it.
    - [Base64], [Msgpack], [Platform] : a browser with a real [atob] and
                   [btoa], a decoder of transactions, and a backend and a
                   wallet that exchange real transactions.
    - [Progress] : which exchanges of a mint run completed.

    The definitions come first; the lemmas and theorems follow them. *)

From Stdlib Require Import ZArith Lia List String Ascii Bool.
From Stdlib Require Import SpecFloat.
Import ListNotations.
Set Warnings "-register-all".
Open Scope string_scope.
Open Scope Z_scope.

(* ================================================================== *)
(** ** JavaScript numbers and values *)
(* ================================================================== *)

Module JS.

(** A JavaScript [number] is an IEEE-754 binary64 value.  [spec_float]
    is the standard library's specification of such values: a sign, a
    mantissa and an exponent, [S754_finite s m e] standing for
    [(-1)^s * m * 2^e]. *)
Definition number : Type := spec_float.

Definition prec : Z := 53.
Definition emax : Z := 1024.

(** [x * y] and [x <= y] as the language computes them. *)
Definition mul (x y : number) : number := SFmul prec emax x y.
Definition leb (x y : number) : bool := SFleb x y.

Definition zero : number := S754_zero false.
Definition NaN : number := S754_nan.

(** The literal [1_000_000], that is [8589934592000000 * 2^-33]. *)
Definition million : number := S754_finite false 8589934592000000 (-33).

Definition isFinite (x : number) : bool :=
  match x with
  | S754_zero _ | S754_finite _ _ _ => true
  | S754_infinity _ | S754_nan => false
  end.

Definition signed (s : bool) (m : positive) : Z :=
  if s then Z.neg m else Z.pos m.

(** The integer a number denotes, when it denotes one. *)
Definition number_to_Z (x : number) : option Z :=
  match x with
  | S754_zero _ => Some 0
  | S754_finite s m e =>
      if 0 <=? e then Some (signed s m * 2 ^ e)
      else if Z.pos m mod 2 ^ (- e) =? 0 then Some (signed s m / 2 ^ (- e))
      else None
  | S754_infinity _ | S754_nan => None
  end.

(** The binary64 representation of a non-zero integer of at most 53 bits:
    the mantissa is shifted left until it has exactly 53 bits.  Wider
    integers do not arise from [Math_floor] on binary64 inputs. *)
Definition normalise (s : bool) (p : positive) : number :=
  let k := Z.log2 (Z.pos p) + 1 in
  if k <=? prec
  then S754_finite s (Z.to_pos (Z.pos p * 2 ^ (prec - k))) (k - prec)
  else S754_finite s p 0.

Definition of_int (z : Z) : number :=
  match z with
  | Z0 => zero
  | Z.pos p => normalise false p
  | Z.neg p => normalise true p
  end.

(** [Math.floor]: NaN, the infinities and the zeros are returned as they
    are; a finite number with a non-negative exponent is an integer
    already; otherwise the mantissa is divided by [2^-e], rounding towards
    minus infinity. *)
Definition Math_floor (x : number) : number :=
  match x with
  | S754_finite s m e =>
      if 0 <=? e then x else of_int (signed s m / 2 ^ (- e))
  | _ => x
  end.

(** JavaScript values, as far as the components handle them: what
    [Response.json()] can return, plus [undefined]. *)
Inductive value : Type :=
| VUndefined
| VNull
| VBool (b : bool)
| VNum (n : number)
| VStr (s : string)
| VArr (items : list value)
| VObj (members : list (string * value)).

(** What is thrown: an [Error] object (or a subclass such as [TypeError]
    or [DOMException]) with its [message], or some other value. *)
Inductive Thrown : Type :=
| ErrorObj (name message : string)
| NonError (v : value).

Inductive Outcome (A : Type) : Type :=
| Ok (a : A)
| Throw (t : Thrown).
Arguments Ok {A} a.
Arguments Throw {A} t.

Definition str_truthy (s : string) : bool :=
  match s with EmptyString => false | String _ _ => true end.

(** ToBoolean. *)
Definition truthy (v : value) : bool :=
  match v with
  | VUndefined | VNull => false
  | VBool b => b
  | VNum (S754_zero _) | VNum S754_nan => false
  | VNum _ => true
  | VStr s => str_truthy s
  | VArr _ | VObj _ => true
  end.

Fixpoint lookup {A : Type} (k : string) (l : list (string * A)) : option A :=
  match l with
  | [] => None
  | (k', v) :: rest => if String.eqb k k' then Some v else lookup k rest
  end.

(** [v.k] for the property names the components read ([detail],
    [funding_txn], [asset_id], ...): a TypeError on [undefined] and
    [null], the member of an object, [undefined] elsewhere. *)
Definition get (v : value) (k : string) : Outcome value :=
  match v with
  | VUndefined | VNull =>
      Throw (ErrorObj "TypeError" ("Cannot read properties (reading '" ++ k ++ "')"))
  | VObj members =>
      match lookup k members with Some x => Ok x | None => Ok VUndefined end
  | _ => Ok VUndefined
  end.

(** [a || b]. *)
Definition or_else (a b : value) : value := if truthy a then a else b.

Fixpoint join (sep : string) (l : list string) : string :=
  match l with
  | [] => EmptyString
  | [s] => s
  | s :: rest => s ++ sep ++ join sep rest
  end.

Section ToString.
(** Number::toString (the shortest decimal that reads back as the same
    binary64 value) is left to the host. *)
Variable Number_toString : number -> string.

Fixpoint ToString (v : value) : string :=
  match v with
  | VUndefined => "undefined"
  | VNull => "null"
  | VBool true => "true"
  | VBool false => "false"
  | VNum n => Number_toString n
  | VStr s => s
  | VArr items =>
      join "," (map (fun x => match x with
                              | VUndefined | VNull => EmptyString
                              | _ => ToString x
                              end) items)
  | VObj _ => "[object Object]"
  end.
End ToString.

(** The JSON document [JSON.stringify v] writes, as a tree: a number that
    is not finite is written [null], negative zero is written [0], a member
    whose value is [undefined] is left out, and an [undefined] array
    element is written [null]. *)
Fixpoint JSON_stringify (v : value) : value :=
  match v with
  | VNum n => if isFinite n
              then match n with S754_zero _ => VNum zero | _ => VNum n end
              else VNull
  | VArr items =>
      VArr (map (fun x => match x with
                          | VUndefined => VNull
                          | _ => JSON_stringify x
                          end) items)
  | VObj members =>
      VObj (flat_map (fun kv => match kv with
                                | (k, x) =>
                                    match x with
                                    | VUndefined => []
                                    | _ => [(k, JSON_stringify x)]
                                    end
                                end) members)
  | _ => v
  end.

End JS.

(* ================================================================== *)
(** ** Effects, exchanges with the outside world, and the handler monad *)
(* ================================================================== *)

Module Browser.
Import JS.

(** A [Uint8Array]. *)
Definition bytes : Type := list Byte.byte.

(** An [algosdk.Transaction]; the library keeps its content to itself, so
    a transaction is identified by the msgpack bytes it stands for. *)
Inductive Transaction : Type :=
| TransactionOf (msgpack : bytes).

(** The [{ txn, signers }] entries handed to the wallet. *)
Record SignerTransaction : Type := {
  txn : Transaction;
  signers : list string
}.

(** The second argument of [fetch]; [body] is the JSON document. *)
Record RequestInit : Type := {
  method : string;
  headers : list (string * string);
  body : value
}.

(** What the handlers read of a [Response]: [ok], [status] and the result
    of [await res.json()]. *)
Record Response : Type := {
  ok : bool;
  status : number;
  json : Outcome value
}.

(** Redeem.tsx, [interface NFTAsset]. *)
Record NFTAsset : Type := {
  assetId : number;
  name : string;
  unitName : string;
  amount : number
}.

(** What a handler does, in the order it does it.  A call to the outside
    world is recorded together with what it returned. *)
Inductive Event : Type :=
| Alert (message : string)
| ConsoleLog (label : string) (v : value)
| ConsoleError (label : string) (err : Thrown)
| SetLoading (b : bool)
| SetStatus (s : string)
| SetAssetName (s : string)
| SetAssetUnit (s : string)
| SetAlgoAmount (n : number)
| SetWalletAddress (a : option string)
| Fetch (url : string) (init : RequestInit) (reply : Outcome Response)
| SignTransaction (groups : list (list SignerTransaction))
                  (reply : Outcome (list bytes))
| AccountInformation (address : string) (reply : Outcome value)
| PeraConnect (reply : Outcome (list string))
| PeraDisconnect (reply : Outcome unit)
| ConnectorOn (event : string).

(** The outside world: the backend behind [fetch], the Pera wallet and the
    algod node.  Each answer may depend on everything that happened
    before the call. *)
Record World : Type := {
  fetch : list Event -> string -> RequestInit -> Outcome Response;
  signTransaction :
    list Event -> list (list SignerTransaction) -> Outcome (list bytes);
  accountInformation : list Event -> string -> Outcome value;
  connect : list Event -> Outcome (list string);
  disconnect : list Event -> Outcome unit;
  connector : list Event -> bool
}.

(** The pure functions of the platform and of algosdk. *)
Record Host : Type := {
  Number_toString : number -> string;
  atob : string -> Outcome string;
  btoa : string -> string;
  decodeUnsignedTransaction : bytes -> Outcome Transaction
}.

(** An async handler: given the events so far, an outcome and the events
    it adds. *)
Definition M (A : Type) : Type := list Event -> Outcome A * list Event.

Definition ret {A : Type} (a : A) : M A := fun _ => (Ok a, []).

Definition throw {A : Type} (t : Thrown) : M A := fun _ => (Throw t, []).

Definition lift {A : Type} (o : Outcome A) : M A := fun _ => (o, []).

Definition bind {A B : Type} (m : M A) (k : A -> M B) : M B :=
  fun h =>
    match m h with
    | (Ok a, es) =>
        match k a (h ++ es)%list with
        | (r, es') => (r, (es ++ es')%list)
        end
    | (Throw t, es) => (Throw t, es)
    end.

Definition emit (e : Event) : M unit := fun _ => (Ok tt, [e]).

(** [try { body } catch (err) { handler err }]. *)
Definition try_catch {A : Type} (body : M A) (handler : Thrown -> M A) : M A :=
  fun h =>
    match body h with
    | (Ok a, es) => (Ok a, es)
    | (Throw t, es) =>
        match handler t (h ++ es)%list with
        | (r, es') => (r, (es ++ es')%list)
        end
    end.

(** [try { body } finally { fin }]. *)
Definition finally {A : Type} (body : M A) (fin : M unit) : M A :=
  fun h =>
    match body h with
    | (r, es) =>
        match fin (h ++ es)%list with
        | (Ok _, es') => (r, (es ++ es')%list)
        | (Throw t, es') => (Throw t, (es ++ es')%list)
        end
    end.

Declare Scope handler_scope.
Delimit Scope handler_scope with handler.
Notation "x <- m ;; k" := (bind m (fun x => k))
  (at level 61, m at next level, right associativity) : handler_scope.
Notation "m ;; k" := (bind m (fun _ => k))
  (at level 61, right associativity) : handler_scope.

Definition alert (message : string) : M unit := emit (Alert message).
Definition console_log (label : string) (v : value) : M unit :=
  emit (ConsoleLog label v).
Definition console_error (label : string) (err : Thrown) : M unit :=
  emit (ConsoleError label err).

Definition await_fetch (w : World) (url : string) (init : RequestInit)
  : M Response :=
  fun h => let r := fetch w h url init in (r, [Fetch url init r]).

Definition await_signTransaction (w : World)
  (groups : list (list SignerTransaction)) : M (list bytes) :=
  fun h => let r := signTransaction w h groups in (r, [SignTransaction groups r]).

Definition await_accountInformation (w : World) (address : string) : M value :=
  fun h => let r := accountInformation w h address in
           (r, [AccountInformation address r]).

Definition await_connect (w : World) : M (list string) :=
  fun h => let r := connect w h in (r, [PeraConnect r]).

Definition await_disconnect (w : World) : M unit :=
  fun h => let r := disconnect w h in (r, [PeraDisconnect r]).

(** [peraWallet.connector?.on(event, callback)]: registers the callback
    when there is a connector, does nothing otherwise. *)
Definition connector_on (w : World) (event : string) : M unit :=
  fun h => if connector w h then (Ok tt, [ConnectorOn event]) else (Ok tt, []).

(** The events of a run that starts with nothing behind it. *)
Definition events {A : Type} (m : M A) : list Event := snd (m []).

(** [err instanceof Error ? err.message : fallback]. *)
Definition message_or (err : Thrown) (fallback : string) : string :=
  match err with
  | ErrorObj _ message => message
  | NonError _ => fallback
  end.

Definition nl : string := String "010"%char EmptyString.

End Browser.

(* ================================================================== *)
(** ** Mint.tsx *)
(* ================================================================== *)

Module Mint.
Import JS Browser.
Local Open Scope handler_scope.

(** What [handleSubmit] reads of the component: the wallet address of the
    context and the three form fields. *)
Record State : Type := {
  walletAddress : option string;
  assetName : string;
  assetUnit : string;
  algoAmount : number
}.

Definition url_mint : string := "http://localhost:8000/mint".
Definition url_submit_funding : string := "http://localhost:8000/submit_funding".
Definition url_create_nft : string := "http://localhost:8000/create_nft".
Definition url_optin : string := "http://localhost:8000/optin".
Definition url_submit_optin : string := "http://localhost:8000/submit_optin".
Definition url_transfer_nft : string := "http://localhost:8000/transfer_nft".

Definition msg_success : string := "Success! NFT minted and transferred!".

(** The first four characters of the success alert, as the source file
    holds them: U+00F0 U+0178 U+017D U+2030, nine bytes in UTF-8. *)
Definition party_popper : string :=
  String "195"%char (String "176"%char
    (String "197"%char (String "184"%char
      (String "197"%char (String "189"%char
        (String "226"%char (String "128"%char (String "176"%char
          EmptyString)))))))).

(** [bytes[i] = binaryString.charCodeAt(i)] for every [i]. *)
Fixpoint charCodes (binaryString : string) : bytes :=
  match binaryString with
  | EmptyString => []
  | String c rest => byte_of_ascii c :: charCodes rest
  end.

(** [binary += String.fromCharCode(u8[i])] for every [i]. *)
Fixpoint fromCharCodes (u8 : bytes) : string :=
  match u8 with
  | [] => EmptyString
  | b :: rest => String (ascii_of_byte b) (fromCharCodes rest)
  end.

(** The document [handleSubmit] posts to [/mint]. *)
Definition mint_payload (w : string) (s : State) : value :=
  VObj [("creator_address", VStr w);
        ("asset_name", VStr (assetName s));
        ("asset_unit", VStr (assetUnit s));
        ("locked_amount", VNum (Math_floor (mul (algoAmount s) million)))].

Section Handlers.
Variable host : Host.
Variable world : World.

Definition toStr (v : value) : string := ToString (Number_toString host) v.

Definition base64ToTxn (b64Txn : value) : M Transaction :=
  try_catch
    (binaryString <- lift (atob host (toStr b64Txn)) ;;
     lift (decodeUnsignedTransaction host (charCodes binaryString)))
    (fun error =>
       console_error "Error decoding transaction:" error ;;
       throw (ErrorObj "Error"
                ("Failed to decode transaction: "
                 ++ message_or error "Unknown error"))).

(** [u8] is [signed[0]], which is [undefined] on an empty array; reading
    [byteLength] of it is a TypeError. *)
Definition uint8ToBase64 (u8 : option bytes) : M string :=
  match u8 with
  | Some b => ret (btoa host (fromCharCodes b))
  | None =>
      throw (ErrorObj "TypeError"
               "Cannot read properties of undefined (reading 'byteLength')")
  end.

(** The shape the six request blocks of [handleSubmit] share:
    [[
      const res = await fetch(url, { method: "POST", headers, body });
      if (!res.ok) {
        const errorData = await res.json();
        throw new Error(errorData.detail || fallback);
      }
      const data = await res.json();
    ]] *)
Definition post (url : string) (payload : value)
  (fallback : Response -> string) : M value :=
  res <- await_fetch world url
           {| method := "POST";
              headers := [("Content-Type", "application/json")];
              body := JSON_stringify payload |} ;;
  if negb (ok res) then
    errorData <- lift (json res) ;;
    detail <- lift (get errorData "detail") ;;
    throw (ErrorObj "Error" (toStr (or_else detail (VStr (fallback res)))))
  else
    lift (json res).

(** The [try] block of [handleSubmit], for the wallet address [w]. *)
Definition mint_steps (w : string) (s : State) : M unit :=
  let payload := mint_payload w s in
  (* STEP 1: Get funding transaction *)
  emit (SetStatus "Getting funding transaction...") ;;
  data1 <- post url_mint payload
             (fun res1 => "Backend error: " ++ Number_toString host (status res1)) ;;
  console_log "Mint response:" data1 ;;
  (* STEP 2: Sign and submit funding transaction *)
  emit (SetStatus "Please sign funding transaction in Pera Wallet...") ;;
  funding_txn <- lift (get data1 "funding_txn") ;;
  fundTxn <- base64ToTxn funding_txn ;;
  signedFundTxns <- await_signTransaction world
                      [[ {| txn := fundTxn; signers := [w] |} ]] ;;
  signedFundB64 <- uint8ToBase64 (nth_error signedFundTxns 0) ;;
  emit (SetStatus "Submitting funding transaction...") ;;
  fundSubmitData <- post url_submit_funding
                      (VObj [("signed_txn", VStr signedFundB64)])
                      (fun _ => "Failed to submit funding transaction") ;;
  console_log "Funding submitted:" fundSubmitData ;;
  (* STEP 3: Create NFT asset (backend creates via escrow) *)
  emit (SetStatus "Creating NFT asset...") ;;
  escrow_address <- lift (get data1 "escrow_address") ;;
  createData <- post url_create_nft
                  (VObj [("escrow_address", escrow_address)])
                  (fun _ => "Failed to create NFT") ;;
  console_log "NFT created:" createData ;;
  assetId <- lift (get createData "asset_id") ;;
  (* STEP 4: Opt-in to receive NFT *)
  emit (SetStatus "Getting opt-in transaction...") ;;
  optinData <- post url_optin
                 (VObj [("asset_id", assetId); ("creator_address", VStr w)])
                 (fun _ => "Failed to get opt-in transaction") ;;
  console_log "Opt-in response:" optinData ;;
  (* STEP 5: Sign and submit opt-in transaction *)
  emit (SetStatus "Please sign opt-in transaction in Pera Wallet...") ;;
  optin_txn <- lift (get optinData "optin_txn") ;;
  optInTxn <- base64ToTxn optin_txn ;;
  signedOptInTxns <- await_signTransaction world
                       [[ {| txn := optInTxn; signers := [w] |} ]] ;;
  signedOptInB64 <- uint8ToBase64 (nth_error signedOptInTxns 0) ;;
  emit (SetStatus "Submitting opt-in transaction...") ;;
  optinSubmitData <- post url_submit_optin
                       (VObj [("signed_txn", VStr signedOptInB64)])
                       (fun _ => "Failed to submit opt-in transaction") ;;
  console_log "Opt-in submitted:" optinSubmitData ;;
  (* STEP 6: Transfer NFT from escrow to creator *)
  emit (SetStatus "Transferring NFT to your wallet...") ;;
  escrow_address' <- lift (get data1 "escrow_address") ;;
  transferData <- post url_transfer_nft
                    (VObj [("escrow_address", escrow_address');
                           ("asset_id", assetId);
                           ("receiver_address", VStr w)])
                    (fun _ => "Failed to transfer NFT") ;;
  console_log "NFT transferred:" transferData ;;
  emit (SetStatus msg_success) ;;
  txid <- lift (get transferData "txid") ;;
  alert (party_popper ++ " NFT Minted Successfully!" ++ nl ++ nl
         ++ "Asset ID: " ++ toStr assetId ++ nl
         ++ "Transaction: " ++ toStr txid ++ nl ++ nl
         ++ "Check your Pera Wallet!") ;;
  (* Reset form *)
  emit (SetAssetName EmptyString) ;;
  emit (SetAssetUnit EmptyString) ;;
  emit (SetAlgoAmount zero) ;;
  emit (SetStatus EmptyString).

Definition handleSubmit (s : State) : M unit :=
  match walletAddress s with
  | None => alert "Connect wallet first!"
  | Some w =>
      if negb (str_truthy w) then alert "Connect wallet first!"
      else if negb (str_truthy (assetName s))
              || negb (str_truthy (assetUnit s))
              || leb (algoAmount s) zero
      then alert "Please fill all fields with valid values!"
      else
        emit (SetLoading true) ;;
        emit (SetStatus "Preparing mint...") ;;
        finally
          (try_catch (mint_steps w s)
             (fun err =>
                console_error "Error during minting:" err ;;
                let errorMsg := message_or err "Unknown error occurred" in
                alert ("Minting failed: " ++ errorMsg ++ nl ++ nl
                       ++ "Check console for details.") ;;
                emit (SetStatus ("Error: " ++ errorMsg))))
          (emit (SetLoading false))
  end.

End Handlers.

End Mint.

(* ================================================================== *)
(** ** Redeem.tsx *)
(* ================================================================== *)

Module Redeem.
Import JS Browser.
Local Open Scope handler_scope.

(** [!walletAddress] for a [string | null]. *)
Definition connected (walletAddress : option string) : bool :=
  match walletAddress with
  | Some w => str_truthy w
  | None => false
  end.

(** The two [useState] cells of the component. *)
Record State : Type := {
  nfts : list NFTAsset;
  selectedNFT : option NFTAsset
}.

Definition initial : State := {| nfts := []; selectedNFT := None |}.

(** What the component renders. *)
Inductive View : Type :=
| ConnectYourWallet
| NoRedeemableNFTs
| Gallery (cards : list NFTAsset) (selected : option NFTAsset).

Definition render (walletAddress : option string) (s : State) : View :=
  if negb (connected walletAddress) then ConnectYourWallet
  else if (List.length (nfts s) =? 0)%nat then NoRedeemableNFTs
  else Gallery (nfts s) (selectedNFT s).

(** The page: the wallet address the context provides and the state. *)
Record Page : Type := {
  wallet : option string;
  state : State
}.

(** The page as it is mounted under a context that provides [a]. *)
Definition mount (a : option string) : Page :=
  {| wallet := a; state := initial |}.

(** What can happen to the page: the context provides another address,
    the user clicks the [i]-th card, the user clicks the burn button. *)
Inductive Action : Type :=
| WalletChanged (a : option string)
| ClickCard (i : nat)
| ClickBurn.

(** The comparison of two values of the dependency [walletAddress], a
    [string | null]. *)
Definition same_address (a b : option string) : bool :=
  match a, b with
  | Some x, Some y => String.eqb x y
  | None, None => true
  | _, _ => false
  end.

Definition is_wallet_changed (a : Action) : bool :=
  match a with
  | WalletChanged _ => true
  | ClickCard _ | ClickBurn => false
  end.

Section Handlers.
Variable host : Host.
Variable world : World.

(** The effect that runs when [walletAddress] changes.  The account
    information is fetched; the lines that filter the assets and call
    [setNfts] are commented out in the source, so nothing is done with
    the answer. *)
Definition fetchNFTs (walletAddress : option string) : M unit :=
  match walletAddress with
  | None => ret tt
  | Some w =>
      if negb (str_truthy w) then ret tt
      else
        try_catch
          (accountInfo <- await_accountInformation world w ;;
           ret tt)
          (fun err => console_error "Error fetching NFTs:" err)
  end.

Definition handleBurn (selectedNFT : option NFTAsset) : M unit :=
  match selectedNFT with
  | None => alert "Select an NFT to burn"
  | Some nft =>
      alert ("Burn NFT with Asset ID: " ++ Number_toString host (assetId nft))
      (* Backend / blockchain logic will go here later *)
  end.

(** One action: the page it leads to and the handler it runs, or [None]
    when the rendered view has no such card or button.  The effect has
    the dependency list [[walletAddress]]: it runs again only when the
    context provides an address that differs from the one of the last
    render. *)
Definition act (p : Page) (a : Action) : option (Page * M unit) :=
  match a with
  | WalletChanged a' =>
      Some ({| wallet := a'; state := state p |},
            if same_address (wallet p) a' then ret tt else fetchNFTs a')
  | ClickCard i =>
      match render (wallet p) (state p) with
      | Gallery cards _ =>
          match nth_error cards i with
          | Some nft =>
              Some ({| wallet := wallet p;
                       state := {| nfts := nfts (state p);
                                   selectedNFT := Some nft |} |},
                    ret tt)
          | None => None
          end
      | _ => None
      end
  | ClickBurn =>
      match render (wallet p) (state p) with
      | Gallery _ _ => Some (p, handleBurn (selectedNFT (state p)))
      | _ => None
      end
  end.

(** A session: the actions one after the other, each handler run to its
    end before the next action. *)
Fixpoint session (p : Page) (h : list Event) (actions : list Action)
  : option (Page * list Event) :=
  match actions with
  | [] => Some (p, h)
  | a :: rest =>
      match act p a with
      | Some (p', handler) => session p' (h ++ snd (handler h))%list rest
      | None => None
      end
  end.

(** A visit of the page: it is mounted, the effect runs once, and the
    actions follow. *)
Definition visit (a : option string) (h : list Event) (actions : list Action)
  : option (Page * list Event) :=
  session (mount a) (h ++ snd (fetchNFTs a h))%list actions.

(** The effect at the mount.  Under [<StrictMode>] a development build
    mounts the component, takes it down and mounts it again, so the effect
    runs twice; a production build runs it once. *)
Definition mount_effect (development : bool) (a : option string) : M unit :=
  if development then (fetchNFTs a ;; fetchNFTs a) else fetchNFTs a.

(** A visit in a development or in a production build. *)
Definition visit_in (development : bool) (a : option string)
  (h : list Event) (actions : list Action) : option (Page * list Event) :=
  session (mount a) (h ++ snd (mount_effect development a h))%list actions.

End Handlers.

(** The addresses for which the effect runs during a visit: the one at the
    mount, and after it each provided address that differs from the one
    before it. *)
Fixpoint effect_runs (current : option string) (provided : list (option string))
  : list (option string) :=
  match provided with
  | [] => []
  | a :: rest =>
      if same_address current a then effect_runs a rest
      else a :: effect_runs a rest
  end.

End Redeem.

(* ================================================================== *)
(** ** WalletContext.tsx and Navbar.tsx *)
(* ================================================================== *)

Module Wallet.
Import JS Browser.
Local Open Scope handler_scope.

(** The members a context value can hold: the address, the wallet
    object, the no-op functions of the default value, the two functions
    of the provider, and the state setter of the provider (which the
    provider keeps to itself). *)
Inductive Member : Type :=
| MAddress (a : option string)
| MPeraWallet
| MNoop
| MConnectWallet
| MDisconnectWallet
| MSetWalletAddress.

(** A context value is an object: its keys and what they hold. *)
Definition Context : Type := list (string * Member).

(** [createContext<WalletContextProps>({ ... })]. *)
Definition default_context : Context :=
  [("walletAddress", MAddress None);
   ("peraWallet", MPeraWallet);
   ("connectWallet", MNoop);
   ("disconnectWallet", MNoop)].

(** [<WalletContext.Provider value={{ walletAddress, peraWallet,
    connectWallet, disconnectWallet }}>]. *)
Definition provided_context (walletAddress : option string) : Context :=
  [("walletAddress", MAddress walletAddress);
   ("peraWallet", MPeraWallet);
   ("connectWallet", MConnectWallet);
   ("disconnectWallet", MDisconnectWallet)].

Definition not_a_function (name : string) : Thrown :=
  ErrorObj "TypeError" (name ++ " is not a function").

Section Handlers.
Variable world : World.

(** WalletProvider, [connectWallet]. *)
Definition provider_connectWallet : M unit :=
  try_catch
    (accounts <- await_connect world ;;
     match accounts with
     | first :: _ => emit (SetWalletAddress (Some first))
     | [] => ret tt
     end)
    (fun err => console_error "Wallet connection failed:" err).

(** WalletProvider, [disconnectWallet]: the promise of
    [peraWallet.disconnect()] is not awaited. *)
Definition provider_disconnectWallet : M unit :=
  fun h =>
    match await_disconnect world h with
    | (_, es) => (Ok tt, (es ++ [SetWalletAddress None])%list)
    end.

(** [f(arg)] for what was read out of the context under [name]. *)
Definition call (name : string) (f : option Member) (arg : option string)
  : M unit :=
  match f with
  | Some MSetWalletAddress => emit (SetWalletAddress arg)
  | Some MNoop => ret tt
  | Some MConnectWallet => provider_connectWallet
  | Some MDisconnectWallet => provider_disconnectWallet
  | Some (MAddress _) | Some MPeraWallet | None => throw (not_a_function name)
  end.

Section Navbar.
(** [useWallet()]. *)
Variable context : Context.

(** [const { walletAddress, setWalletAddress } = useWallet();] *)
Definition setWalletAddress : option Member :=
  lookup "setWalletAddress" context.

(** The [try] block of [connectWallet]. *)
Definition connectWallet_try : M unit :=
  accounts <- await_connect world ;;
  match accounts with
  | first :: _ => call "setWalletAddress" setWalletAddress (Some first)
  | [] => ret tt
  end ;;
  (* Listen for disconnect *)
  connector_on world "disconnect".

Definition connectWallet : M unit :=
  try_catch connectWallet_try
    (fun error => console_error "Wallet connection failed:" error).

Definition disconnectWallet : M unit :=
  try_catch
    (await_disconnect world ;;
     call "setWalletAddress" setWalletAddress None)
    (fun error => console_error EmptyString error).

End Navbar.

End Handlers.

End Wallet.

(* ================================================================== *)
(** ** The redemption protocol (redeemV4.py) *)
(* ================================================================== *)

Module Protocol.

(** Modelled from the spec: the amount computation of the redemption
    script redeemV4.py (specification 4.4, step 5), which is not among the
    sources.  Amounts are integers in the smallest currency unit; the
    [locked_amount] of the mint metadata is optional. *)
Definition fallbackAmount
  (escrowCurrentBalance minimumReserveRequirement feeBuffer : Z) : Z :=
  let difference := escrowCurrentBalance - minimumReserveRequirement - feeBuffer in
  if difference <? 0 then 0 else difference.

(** Modelled from the spec: redeemV4.py, step 5 (see [fallbackAmount]). *)
Definition computeAmount (locked_amount : option Z)
  (escrowCurrentBalance minimumReserveRequirement feeBuffer : Z) : Z :=
  match locked_amount with
  | Some stored => stored
  | None =>
      fallbackAmount escrowCurrentBalance minimumReserveRequirement feeBuffer
  end.

(** Modelled from the spec: section 8, property 4, "the two computation
    paths agree when both are available": the metadata holds the amount
    [stored], the escrow has the balance the fallback computes from, and
    the two give the same payout. *)
Definition paths_agree
  (stored escrowCurrentBalance minimumReserveRequirement feeBuffer : Z) : Prop :=
  computeAmount None escrowCurrentBalance minimumReserveRequirement feeBuffer
  = computeAmount (Some stored) escrowCurrentBalance
      minimumReserveRequirement feeBuffer.

(** Modelled from the spec: an account address of the ledger. *)
Definition address : Type := string.

(** Modelled from the spec: the ledger state the redemption changes, for
    the mock ledger of testable property 5: the balance of every account
    and its holding of every asset. *)
Record Ledger : Type := {
  balance : address -> Z;
  holding : address -> Z -> Z
}.

(** Modelled from the spec: the two kinds of transaction of a redemption
    group, an asset transfer and a payment. *)
Inductive Txn : Type :=
| AssetTransfer (sender receiver : address) (asset units : Z)
| Payment (sender receiver : address) (amount : Z).

Definition set1 (f : address -> Z) (a : address) (v : Z) : address -> Z :=
  fun x => if String.eqb x a then v else f x.

Definition set2 (f : address -> Z -> Z) (a : address) (asset v : Z)
  : address -> Z -> Z :=
  fun x y => if String.eqb x a && (y =? asset) then v else f x y.

(** Modelled from the spec: one transaction on the mock ledger.  It is
    rejected when the mock is told to reject it, when the amount is
    negative, or when the sender does not have what it sends. *)
Definition apply (rejects : Txn -> bool) (l : Ledger) (t : Txn)
  : option Ledger :=
  if rejects t then None
  else
    match t with
    | AssetTransfer s r asset units =>
        if (0 <=? units) && (units <=? holding l s asset) then
          let h1 := set2 (holding l) s asset (holding l s asset - units) in
          Some {| balance := balance l;
                  holding := set2 h1 r asset (h1 r asset + units) |}
        else None
    | Payment s r amount =>
        if (0 <=? amount) && (amount <=? balance l s) then
          let b1 := set1 (balance l) s (balance l s - amount) in
          Some {| balance := set1 b1 r (b1 r + amount);
                  holding := holding l |}
        else None
    end.

(** Modelled from the spec: the transactions of a group, one after the
    other, as long as none is rejected. *)
Fixpoint apply_all (rejects : Txn -> bool) (l : Ledger) (group : list Txn)
  : option Ledger :=
  match group with
  | [] => Some l
  | t :: rest =>
      match apply rejects l t with
      | Some l' => apply_all rejects l' rest
      | None => None
      end
  end.

(** Modelled from the spec: an atomic group is committed or rejected as a
    unit (glossary, "atomic group"). *)
Definition submit_group (rejects : Txn -> bool) (l : Ledger)
  (group : list Txn) : Ledger * bool :=
  match apply_all rejects l group with
  | Some l' => (l', true)
  | None => (l, false)
  end.

(** Modelled from the spec: redeemV4.py, step 6 (specification 4.4):
    (a) the redeemer transfers the single asset unit to the escrow,
    (b) the escrow pays the computed amount to the redeemer. *)
Definition redemption_group (redeemer escrow : address) (asset amount : Z)
  : list Txn :=
  [AssetTransfer redeemer escrow asset 1; Payment escrow redeemer amount].

(** Modelled from the spec: the mutating step of a redemption submits
    that group. *)
Definition redeem (rejects : Txn -> bool) (l : Ledger)
  (redeemer escrow : address) (asset amount : Z) : Ledger * bool :=
  submit_group rejects l (redemption_group redeemer escrow asset amount).

End Protocol.

(* ================================================================== *)
(** ** Reading a trace *)
(* ================================================================== *)

Module Trace.
Import JS Browser.

(** The calls to the outside world. *)
Inductive Call : Type :=
| CFetch (url : string)
| CSign
| CAccountInformation
| CConnect
| CDisconnect
| CConnectorOn.

Definition resolved {A : Type} (o : Outcome A) : bool :=
  match o with Ok _ => true | Throw _ => false end.

(** A call and whether it went well: a request is answered with an [ok]
    response, a promise is resolved. *)
Definition call_of (e : Event) : option (Call * bool) :=
  match e with
  | Fetch url _ reply =>
      Some (CFetch url, match reply with Ok r => ok r | Throw _ => false end)
  | SignTransaction _ reply => Some (CSign, resolved reply)
  | AccountInformation _ reply => Some (CAccountInformation, resolved reply)
  | PeraConnect reply => Some (CConnect, resolved reply)
  | PeraDisconnect reply => Some (CDisconnect, resolved reply)
  | ConnectorOn _ => Some (CConnectorOn, true)
  | _ => None
  end.

Fixpoint calls (t : list Event) : list (Call * bool) :=
  match t with
  | [] => []
  | e :: rest =>
      match call_of e with
      | Some c => c :: calls rest
      | None => calls rest
      end
  end.

Definition oks (script : list Call) : list (Call * bool) :=
  map (fun c => (c, true)) script.

(** The calls of [handleSubmit], in the order the source makes them. *)
Definition mint_script : list Call :=
  [CFetch Mint.url_mint; CSign; CFetch Mint.url_submit_funding;
   CFetch Mint.url_create_nft; CFetch Mint.url_optin; CSign;
   CFetch Mint.url_submit_optin; CFetch Mint.url_transfer_nft].

(** The requests that change the ledger: the funding payment, the asset
    creation, the holder's opt-in and the transfer to the holder. *)
Definition ledger_steps : list string :=
  [Mint.url_submit_funding; Mint.url_create_nft;
   Mint.url_submit_optin; Mint.url_transfer_nft].

Definition changes_ledger (c : Call) : bool :=
  match c with
  | CFetch url => existsb (String.eqb url) ledger_steps
  | _ => false
  end.

(** The ledger-changing requests of a trace, in order, with their result. *)
Definition ledger_calls (t : list Event) : list (Call * bool) :=
  filter (fun c => changes_ledger (fst c)) (calls t).

(** What a run that follows [script] and may stop early has called: every
    call but the last one went well, and nothing follows a failed call. *)
Inductive partial : list Call -> list (Call * bool) -> Prop :=
| partial_stop script : partial script []
| partial_fail c script : partial (c :: script) [(c, false)]
| partial_ok c script rest :
    partial script rest -> partial (c :: script) ((c, true) :: rest).

(** Success is reported to the user. *)
Definition is_success (e : Event) : bool :=
  match e with
  | SetStatus s => String.eqb s Mint.msg_success
  | _ => false
  end.

Definition reported (t : list Event) : bool := existsb is_success t.





(** The document of the first request of a trace. *)
Fixpoint first_request (t : list Event) : option (string * value) :=
  match t with
  | [] => None
  | Fetch url init _ :: _ => Some (url, body init)
  | _ :: rest => first_request rest
  end.

(** A handler submits something: a request to the backend or a
    transaction handed to the wallet for signature. *)
Definition submits (e : Event) : bool :=
  match e with
  | Fetch _ _ _ | SignTransaction _ _ => true
  | _ => false
  end.

(** The events of a page visit that starts with nothing behind it. *)
Definition visit_events (host : Host) (world : World) (a : option string)
  (actions : list Redeem.Action) : list Event :=
  match Redeem.visit host world a [] actions with
  | Some (_, t) => t
  | None => []
  end.

(** [m] makes the calls of [script], in order, and does not report
    success: when it returns, every call went well; when it throws, it
    stopped somewhere along the script. *)
Definition quiet {A : Type} (script : list Call) (m : M A) : Prop :=
  forall h,
    reported (snd (m h)) = false /\
    match fst (m h) with
    | Ok _ => calls (snd (m h)) = oks script
    | Throw _ => partial script (calls (snd (m h)))
    end.

(** [m] makes no call. *)
Definition silent {A : Type} (m : M A) : Prop :=
  forall h, calls (snd (m h)) = [].

(** [m] stops somewhere along [script], and reports success only when
    every call of the script was made and went well. *)
Definition good {A : Type} (script : list Call) (m : M A) : Prop :=
  forall h,
    partial script (calls (snd (m h))) /\
    (reported (snd (m h)) = true -> calls (snd (m h)) = oks script).


End Trace.

(* ================================================================== *)
(** ** Sample hosts, worlds and inputs *)
(* ================================================================== *)

Module Sample.
Import JS Browser.

Definition host : Host :=
  {| Number_toString := fun n =>
       match number_to_Z n with Some 0 => "0" | _ => "n" end;
     atob := fun s => Ok s;
     btoa := fun s => s;
     decodeUnsignedTransaction := fun b => Ok (TransactionOf b) |}.

(** The number 200. *)
Definition n200 : number := S754_finite false 7036874417766400 (-45).

(** A backend that answers every request with [200 OK] and a document
    holding every member the front end reads; a wallet that signs. *)
Definition reply_ok : Response :=
  {| ok := true;
     status := n200;
     json := Ok (VObj [("funding_txn", VStr "AAAA");
                       ("escrow_address", VStr "ESCROW");
                       ("asset_id", VNum n200);
                       ("optin_txn", VStr "BBBB");
                       ("txid", VStr "TXID")]) |}.

Definition willing : World :=
  {| fetch := fun _ _ _ => Ok reply_ok;
     signTransaction := fun _ _ => Ok [[Byte.x01]];
     accountInformation := fun _ _ => Ok (VObj []);
     connect := fun _ => Ok ["ALICE"];
     disconnect := fun _ => Ok tt;
     connector := fun _ => true |}.

(** A backend that refuses the request to [url] with [500] and a
    [detail], and answers every other request as [willing] does. *)
Definition n500 : number := S754_finite false 8796093022208000 (-44).

Definition reply_refused : Response :=
  {| ok := false;
     status := n500;
     json := Ok (VObj [("detail", VStr "escrow not funded")]) |}.

Definition refusing (url : string) : World :=
  {| fetch := fun _ u _ => if String.eqb u url then Ok reply_refused
                           else Ok reply_ok;
     signTransaction := signTransaction willing;
     accountInformation := accountInformation willing;
     connect := connect willing;
     disconnect := disconnect willing;
     connector := connector willing |}.

(** 5 ALGO, that is [5 * 2^50 * 2^-50]. *)
Definition five : number := S754_finite false 5629499534213120 (-50).

(** The binary64 number closest to 0.0000005 (half a microAlgo). *)
Definition half_micro : number := S754_finite false 4722366482869645 (-73).

(** The binary64 number closest to 1e303. *)
Definition huge : number := S754_finite false 6567258882077402 954.

Definition form (a : number) : Mint.State :=
  {| Mint.walletAddress := Some "ALICE";
     Mint.assetName := "Ticket";
     Mint.assetUnit := "TCK";
     Mint.algoAmount := a |}.

(** A mock ledger: the escrow holds 5 ALGO and what it needs besides,
    the redeemer holds the one unit of asset 7. *)
Definition ledger0 : Protocol.Ledger :=
  {| Protocol.balance := fun a => if String.eqb a "ESCROW" then 5201000 else 0;
     Protocol.holding := fun a asset =>
       if String.eqb a "REDEEMER" && (asset =? 7) then 1 else 0 |}.

(** The mock rejects every payment, and nothing else. *)
Definition reject_payments (t : Protocol.Txn) : bool :=
  match t with
  | Protocol.Payment _ _ _ => true
  | Protocol.AssetTransfer _ _ _ _ => false
  end.

Definition reject_nothing (t : Protocol.Txn) : bool := false.

End Sample.

(* ================================================================== *)
(** ** Further readings of a trace, and specifications of handlers *)
(* ================================================================== *)

Module Observe.
Import JS Browser.

(** [m] satisfies [Q]: whatever happened before, its outcome and the
    events it adds are related by [Q]. *)
Definition holds {A : Type} (m : M A) (Q : Outcome A -> list Event -> Prop)
  : Prop :=
  forall h, Q (fst (m h)) (snd (m h)).

(** The same for a handler that runs after the events [prefix]: [P] is
    about the whole trace. *)
Definition holds_after {A : Type} (prefix : list Event) (m : M A)
  (P : Outcome A -> list Event -> Prop) : Prop :=
  forall h, P (fst (m h)) (prefix ++ snd (m h))%list.

(** [t] ends with [suffix]. *)
Definition ends_with (suffix t : list Event) : Prop :=
  exists pre, t = (pre ++ suffix)%list.

(** The document of the first request to [url]. *)
Fixpoint request_body (url : string) (t : list Event) : option value :=
  match t with
  | [] => None
  | Fetch u init _ :: rest =>
      if String.eqb u url then Some (body init) else request_body url rest
  | _ :: rest => request_body url rest
  end.

(** The document the backend answered the first request to [url] with,
    when the answer was [ok] and its body could be read. *)
Fixpoint response_json (url : string) (t : list Event) : option value :=
  match t with
  | [] => None
  | Fetch u _ reply :: rest =>
      if String.eqb u url then
        match reply with
        | Ok res =>
            if ok res
            then match json res with Ok v => Some v | Throw _ => None end
            else None
        | Throw _ => None
        end
      else response_json url rest
  | _ :: rest => response_json url rest
  end.

(** What the wallet was asked to sign, call by call, and what it
    answered. *)
Fixpoint sign_calls (t : list Event)
  : list (list (list SignerTransaction) * Outcome (list bytes)) :=
  match t with
  | [] => []
  | SignTransaction groups reply :: rest => (groups, reply) :: sign_calls rest
  | _ :: rest => sign_calls rest
  end.

(** The requests of a trace: address, method and headers. *)
Fixpoint requests (t : list Event)
  : list (string * string * list (string * string)) :=
  match t with
  | [] => []
  | Fetch url init _ :: rest => (url, method init, headers init) :: requests rest
  | _ :: rest => requests rest
  end.


(** The [loading] flag after the events of [t], starting from [b]. *)
Fixpoint loading_after (b : bool) (t : list Event) : bool :=
  match t with
  | [] => b
  | SetLoading b' :: rest => loading_after b' rest
  | _ :: rest => loading_after b rest
  end.

(** The wallet address after the events of [t], starting from [a]. *)
Fixpoint address_after (a : option string) (t : list Event) : option string :=
  match t with
  | [] => a
  | SetWalletAddress a' :: rest => address_after a' rest
  | _ :: rest => address_after a rest
  end.

(** The accounts whose information was asked of the node, in order. *)
Fixpoint queried (t : list Event) : list string :=
  match t with
  | [] => []
  | AccountInformation address _ :: rest => address :: queried rest
  | _ :: rest => queried rest
  end.

(** The errors that were logged, in order. *)
Fixpoint logged_errors (t : list Event) : list Thrown :=
  match t with
  | [] => []
  | ConsoleError _ err :: rest => err :: logged_errors rest
  | _ :: rest => logged_errors rest
  end.

(** The reads of the node that failed, in order. *)
Fixpoint failed_reads (t : list Event) : list Thrown :=
  match t with
  | [] => []
  | AccountInformation _ (Throw err) :: rest => err :: failed_reads rest
  | _ :: rest => failed_reads rest
  end.

(** The connected ones among the addresses a context provides. *)
Fixpoint connected_addresses (provided : list (option string)) : list string :=
  match provided with
  | [] => []
  | Some w :: rest =>
      if str_truthy w then w :: connected_addresses rest
      else connected_addresses rest
  | None :: rest => connected_addresses rest
  end.

(** The listeners registered on the wallet's connector. *)
Fixpoint listeners (t : list Event) : list string :=
  match t with
  | [] => []
  | ConnectorOn event :: rest => event :: listeners rest
  | _ :: rest => listeners rest
  end.

Section MintTexts.
Variable host : Host.

(** The text of the success alert of [handleSubmit]. *)
Definition success_alert (assetId txid : value) : string :=
  Mint.party_popper ++ " NFT Minted Successfully!" ++ nl ++ nl
  ++ "Asset ID: " ++ Mint.toStr host assetId ++ nl
  ++ "Transaction: " ++ Mint.toStr host txid ++ nl ++ nl
  ++ "Check your Pera Wallet!".

(** How a successful run of [handleSubmit] ends. *)
Definition success_ending (assetId txid : value) : list Event :=
  [Alert (success_alert assetId txid);
   SetAssetName EmptyString; SetAssetUnit EmptyString;
   SetAlgoAmount zero; SetStatus EmptyString; SetLoading false].

End MintTexts.

(** How a failed run of [handleSubmit] ends. *)
Definition failure_ending (err : Thrown) : list Event :=
  [ConsoleError "Error during minting:" err;
   Alert ("Minting failed: " ++ message_or err "Unknown error occurred"
          ++ nl ++ nl ++ "Check console for details.");
   SetStatus ("Error: " ++ message_or err "Unknown error occurred");
   SetLoading false].

(** The guard of [handleSubmit] lets the form through. *)
Definition passes_guard (s : Mint.State) : bool :=
  Redeem.connected (Mint.walletAddress s)
  && str_truthy (Mint.assetName s)
  && str_truthy (Mint.assetUnit s)
  && negb (leb (Mint.algoAmount s) zero).

(** The six requests of the mint flow, as [handleSubmit] makes them. *)
Definition mint_requests : list (string * string * list (string * string)) :=
  map (fun url => (url, "POST", [("Content-Type", "application/json")]))
    [Mint.url_mint; Mint.url_submit_funding; Mint.url_create_nft;
     Mint.url_optin; Mint.url_submit_optin; Mint.url_transfer_nft].

(** The wallet is asked to sign one transaction, as [w] and nobody else. *)
Definition signs_one_as (w : string)
  (call : list (list SignerTransaction) * Outcome (list bytes)) : Prop :=
  exists tx, fst call = [[ {| txn := tx; signers := [w] |} ]].

Section MintFlows.
Variable host : Host.

(** What the transfer request of a trace carries: the escrow address the
    backend answered the mint request with, the asset id it answered the
    creation request with, and [w] as the receiver; the creation request
    carried that escrow address and the opt-in request that asset id. *)
Definition transfer_carries (w : string) (t : list Event) (b : value) : Prop :=
  exists data1 createData escrow assetId,
    response_json Mint.url_mint t = Some data1 /\
    response_json Mint.url_create_nft t = Some createData /\
    get data1 "escrow_address" = Ok escrow /\
    get createData "asset_id" = Ok assetId /\
    request_body Mint.url_create_nft t =
      Some (JSON_stringify (VObj [("escrow_address", escrow)])) /\
    request_body Mint.url_optin t =
      Some (JSON_stringify (VObj [("asset_id", assetId);
                                  ("creator_address", VStr w)])) /\
    b = JSON_stringify (VObj [("escrow_address", escrow);
                              ("asset_id", assetId);
                              ("receiver_address", VStr w)]).

(** What a submission carries: the answer to [url_txn] held, under
    [member], a transaction in base64; the wallet was asked, in its
    [n]-th call, to sign that transaction as [w], and the first thing it
    signed is what is submitted, in base64. *)
Definition submission_carries (w : string) (url_txn member : string) (n : nat)
  (t : list Event) (b : value) : Prop :=
  exists data b64Txn binaryString tx signed others,
    response_json url_txn t = Some data /\
    get data member = Ok b64Txn /\
    atob host (Mint.toStr host b64Txn) = Ok binaryString /\
    decodeUnsignedTransaction host (Mint.charCodes binaryString) = Ok tx /\
    nth_error (sign_calls t) n =
      Some ([[ {| txn := tx; signers := [w] |} ]], Ok (signed :: others)) /\
    b = VObj [("signed_txn",
               VStr (btoa host (Mint.fromCharCodes signed)))].

End MintFlows.

End Observe.

(* ================================================================== *)
(** ** Navbar.tsx: the button of the bar *)
(* ================================================================== *)

Module Bar.
Import JS Browser Wallet Observe.

(** [walletAddress.slice(0, 6)}...{walletAddress.slice(-4)]. *)
Definition short_address (w : string) : string :=
  substring 0 6 w ++ "..." ++ substring (String.length w - 4) 4 w.

(** What the right side of the bar shows: the button that disconnects,
    labelled with the shortened address, or the button that connects. *)
Inductive Button : Type :=
| DisconnectButton (label : string)
| ConnectWalletButton.

Definition button (walletAddress : option string) : Button :=
  match walletAddress with
  | Some w =>
      if str_truthy w then DisconnectButton (short_address w)
      else ConnectWalletButton
  | None => ConnectWalletButton
  end.

Section Clicks.
Variable world : World.

(** A click on the button the bar shows, under the context the provider
    passes down for the address [a]. *)
Definition click (a : option string) : M unit :=
  match button a with
  | DisconnectButton _ => disconnectWallet world (provided_context a)
  | ConnectWalletButton => connectWallet world (provided_context a)
  end.

(** [n] clicks, one after the other, each on the button shown for the
    address the clicks before it left: the address at the end, and the
    events. *)
Fixpoint clicks (n : nat) (a : option string) (h : list Event)
  : option string * list Event :=
  match n with
  | O => (a, h)
  | S n' =>
      let es := snd (click a h) in
      clicks n' (address_after a es) (h ++ es)%list
  end.

End Clicks.

End Bar.

(* ================================================================== *)
(** ** The platform: base64 and the transactions of the wallet *)
(* ================================================================== *)

Module Base64.
Import JS.

Definition alphabet : string :=
  "ABCDEFGHIJKLMNOPQRSTUVWXYZabcdefghijklmnopqrstuvwxyz0123456789+/".

(** The character that stands for a six-bit value. *)
Definition digit (n : N) : ascii :=
  match String.get (N.to_nat n) alphabet with
  | Some c => c
  | None => "="%char
  end.

(** The six-bit value of a character of the alphabet. *)
Definition sextet (c : ascii) : option N :=
  let n := N_of_ascii c in
  if ((65 <=? n) && (n <=? 90))%N then Some (n - 65)%N
  else if ((97 <=? n) && (n <=? 122))%N then Some (n - 71)%N
  else if ((48 <=? n) && (n <=? 57))%N then Some (n + 4)%N
  else if (n =? 43)%N then Some 62%N
  else if (n =? 47)%N then Some 63%N
  else None.

(** [btoa] on a binary string: three bytes become four characters, and
    the last group is padded with [=]. *)
Fixpoint btoa (s : string) : string :=
  match s with
  | EmptyString => EmptyString
  | String a EmptyString =>
      let x := N_of_ascii a in
      String (digit (x / 4)%N)
        (String (digit (x mod 4 * 16)%N) "==")
  | String a (String b EmptyString) =>
      let x := N_of_ascii a in
      let y := N_of_ascii b in
      String (digit (x / 4)%N)
        (String (digit (x mod 4 * 16 + y / 16)%N)
           (String (digit (y mod 16 * 4)%N) "="))
  | String a (String b (String c rest)) =>
      let x := N_of_ascii a in
      let y := N_of_ascii b in
      let z := N_of_ascii c in
      String (digit (x / 4)%N)
        (String (digit (x mod 4 * 16 + y / 16)%N)
           (String (digit (y mod 16 * 4 + z / 64)%N)
              (String (digit (z mod 64)%N) (btoa rest))))
  end.

(** TAB, LF, FF, CR and SPACE. *)
Definition is_whitespace (c : ascii) : bool :=
  let n := N_of_ascii c in
  ((n =? 9) || (n =? 10) || (n =? 12) || (n =? 13) || (n =? 32))%N.

(** One or two [=] at the end of a text whose length is a multiple of
    four are dropped. *)
Definition unpad (l : list ascii) : list ascii :=
  if (List.length l mod 4 =? 0)%nat then
    match rev l with
    | "="%char :: "="%char :: r => rev r
    | "="%char :: r => rev r
    | _ => l
    end
  else l.

Fixpoint sextets (l : list ascii) : option (list N) :=
  match l with
  | [] => Some []
  | c :: rest =>
      match sextet c, sextets rest with
      | Some n, Some ns => Some (n :: ns)
      | _, _ => None
      end
  end.

(** Four six-bit values become three bytes; the bits left over at the
    end are dropped. *)
Fixpoint octets (l : list N) : string :=
  match l with
  | a :: b :: c :: d :: rest =>
      String (ascii_of_N (a * 4 + b / 16)%N)
        (String (ascii_of_N (b mod 16 * 16 + c / 4)%N)
           (String (ascii_of_N (c mod 4 * 64 + d)%N) (octets rest)))
  | [a; b; c] =>
      String (ascii_of_N (a * 4 + b / 16)%N)
        (String (ascii_of_N (b mod 16 * 16 + c / 4)%N) EmptyString)
  | [a; b] => String (ascii_of_N (a * 4 + b / 16)%N) EmptyString
  | _ => EmptyString
  end.

Definition invalid_character : Thrown :=
  ErrorObj "InvalidCharacterError"
    "The string to be decoded is not correctly encoded.".

(** [atob]: the forgiving base64 decoding of the HTML standard. *)
Definition atob (s : string) : Outcome string :=
  let l := unpad (filter (fun c => negb (is_whitespace c))
                    (list_ascii_of_string s)) in
  if (List.length l mod 4 =? 1)%nat then Throw invalid_character
  else
    match sextets l with
    | Some ns => Ok (octets ns)
    | None => Throw invalid_character
    end.

End Base64.

(** The part of MessagePack that an unsigned transaction is written in:
    a map of at most fifteen entries whose keys are short texts and whose
    values are unsigned integers, texts or binary data. *)
Module Msgpack.
Import Browser.

Inductive Item : Type :=
| Int (n : N)
| Str (s : string)
| Bin (b : bytes).

(** The first [n] elements of [l] and the rest, when [l] has that many. *)
Fixpoint take {A : Type} (n : nat) (l : list A) : option (list A * list A) :=
  match n, l with
  | O, _ => Some ([], l)
  | S n', x :: rest =>
      match take n' rest with
      | Some (front, back) => Some (x :: front, back)
      | None => None
      end
  | S _, [] => None
  end.

(** A big-endian unsigned integer. *)
Definition uint (b : bytes) : N :=
  fold_left (fun acc x => (acc * 256 + Byte.to_N x)%N) b 0%N.

Definition text (b : bytes) : string :=
  string_of_list_ascii (map ascii_of_byte b).

Definition read_uint (width : nat) (l : bytes) : option (Item * bytes) :=
  match take width l with
  | Some (front, back) => Some (Int (uint front), back)
  | None => None
  end.

Definition read_text (len : nat) (l : bytes) : option (Item * bytes) :=
  match take len l with
  | Some (front, back) => Some (Str (text front), back)
  | None => None
  end.

Definition read_item (l : bytes) : option (Item * bytes) :=
  match l with
  | [] => None
  | tag :: rest =>
      let n := Byte.to_N tag in
      if (n <? 128)%N then Some (Int n, rest)
      else if ((160 <=? n) && (n <? 192))%N
      then read_text (N.to_nat (n - 160)) rest
      else if (n =? 196)%N then
        match rest with
        | len :: rest' =>
            match take (N.to_nat (Byte.to_N len)) rest' with
            | Some (front, back) => Some (Bin front, back)
            | None => None
            end
        | [] => None
        end
      else if (n =? 204)%N then read_uint 1 rest
      else if (n =? 205)%N then read_uint 2 rest
      else if (n =? 206)%N then read_uint 4 rest
      else if (n =? 207)%N then read_uint 8 rest
      else if (n =? 217)%N then
        match rest with
        | len :: rest' => read_text (N.to_nat (Byte.to_N len)) rest'
        | [] => None
        end
      else None
  end.

Fixpoint read_entries (n : nat) (l : bytes)
  : option (list (string * Item) * bytes) :=
  match n with
  | O => Some ([], l)
  | S n' =>
      match read_item l with
      | Some (Str key, l1) =>
          match read_item l1 with
          | Some (item, l2) =>
              match read_entries n' l2 with
              | Some (entries, l3) => Some ((key, item) :: entries, l3)
              | None => None
              end
          | None => None
          end
      | _ => None
      end
  end.

(** A whole document: one map and nothing after it. *)
Definition read_map (l : bytes) : option (list (string * Item)) :=
  match l with
  | [] => None
  | tag :: rest =>
      let n := Byte.to_N tag in
      if ((128 <=? n) && (n <? 144))%N then
        match read_entries (N.to_nat (n - 128)) rest with
        | Some (entries, []) => Some entries
        | _ => None
        end
      else None
  end.

End Msgpack.

(** A browser with the Algorand SDK loaded, a backend and a wallet that
    exchange real transactions. *)
Module Platform.
Import JS Browser.

Fixpoint digits (fuel : nat) (n : N) (acc : string) : string :=
  match fuel with
  | O => acc
  | S fuel' =>
      let acc' := String (ascii_of_N (48 + n mod 10)%N) acc in
      if (n / 10 =? 0)%N then acc' else digits fuel' (n / 10)%N acc'
  end.

(** [Number.prototype.toString] on the whole numbers below [10^21] and
    on the numbers that are not finite.  The backend of this module sends
    no other number, and no text is given for the others. *)
Definition Number_toString (n : number) : string :=
  match n with
  | S754_nan => "NaN"
  | S754_infinity false => "Infinity"
  | S754_infinity true => "-Infinity"
  | _ =>
      match number_to_Z n with
      | Some z =>
          if Z.abs z <? 10 ^ 21 then
            (if z <? 0 then "-" else EmptyString)
            ++ digits 21 (Z.to_N (Z.abs z)) EmptyString
          else EmptyString
      | None => EmptyString
      end
  end.

Definition transaction_types : list string :=
  ["pay"; "keyreg"; "acfg"; "axfer"; "afrz"; "appl"; "stpf"].

Definition is_key (item : option Msgpack.Item) : bool :=
  match item with
  | Some (Msgpack.Bin b) => (List.length b =? 32)%nat
  | _ => false
  end.

(** [algosdk.decodeUnsignedTransaction], as far as this module needs it:
    the bytes are a MessagePack map that names a transaction type, a
    sender and a genesis hash, each 32 bytes long. *)
Definition decodeUnsignedTransaction (b : bytes) : Outcome Transaction :=
  match Msgpack.read_map b with
  | Some fields =>
      match lookup "type" fields with
      | Some (Msgpack.Str type) =>
          if existsb (String.eqb type) transaction_types
             && is_key (lookup "snd" fields)
             && is_key (lookup "gh" fields)
          then Ok (TransactionOf b)
          else Throw (ErrorObj "Error" "Invalid transaction")
      | _ => Throw (ErrorObj "Error" "Invalid transaction")
      end
  | None => Throw (ErrorObj "Error" "Invalid msgpack")
  end.

Definition host : Host :=
  {| Browser.Number_toString := Number_toString;
     Browser.atob := Base64.atob;
     Browser.btoa := Base64.btoa;
     Browser.decodeUnsignedTransaction := decodeUnsignedTransaction |}.

(** The address of the public key [01 02 .. 20] and of the public key
    [21 22 .. 40]. *)
Definition creator : string :=
  "AEBAGBAFAYDQQCIKBMGA2DQPCAIREEYUCULBOGAZDINRYHI6D4QDTYK3BA".

Definition escrow : string :=
  "EERCGJBFEYTSQKJKFMWC2LRPGAYTEMZUGU3DOOBZHI5TYPJ6H5APQGQK7A".

(** A payment of 5201000 microAlgos from [creator] to [escrow] on
    TestNet, unsigned, as MessagePack in base64. *)
Definition funding_txn : string :=
  "iaNhbXTOAE9caKNmZWXNA+iiZnbOAq6lQKNnZW6sdGVzdG5ldC12MS4womdoxCBIY7UYpLPITsgQ8i1PEIHLD3HwWaesIN7GL39w5Qk6IqJsds4Crqkoo3JjdsQgISIjJCUmJygpKissLS4vMDEyMzQ1Njc4OTo7PD0+P0Cjc25kxCABAgMEBQYHCAkKCwwNDg8QERITFBUWFxgZGhscHR4fIKR0eXBlo3BheQ==".

Definition asset_id : Z := 733059721.

(** The opt-in of [creator] to the asset [asset_id]: a transfer of
    nothing to itself. *)
Definition optin_txn : string :=
  "iaRhcmN2xCABAgMEBQYHCAkKCwwNDg8QERITFBUWFxgZGhscHR4fIKNmZWXNA+iiZnbOAq6lSqNnZW6sdGVzdG5ldC12MS4womdoxCBIY7UYpLPITsgQ8i1PEIHLD3HwWaesIN7GL39w5Qk6IqJsds4Crqkyo3NuZMQgAQIDBAUGBwgJCgsMDQ4PEBESExQVFhcYGRobHB0eHyCkdHlwZaVheGZlcqR4YWlkziuxmok=".

Definition funding_txid : string :=
  "LCSBLTEYMASXW4HQNTX7NNHQAACVMWVQPBSTWF45EGA5JAJX464A".

Definition optin_txid : string :=
  "GDZDVSKTHNR5YKMCHZH3QESQDKWJGC4ZSDFV576EXYCPJYD6H3JQ".

Definition transfer_txid : string :=
  "A2DY2RRRA46YLUHLEGTLLEN2NUN2DM22XB76LCLZL3P2TD4ZTAVA".

Definition answer (members : list (string * value)) : Outcome Response :=
  Ok {| ok := true;
        status := of_int 200;
        json := Ok (VObj members) |}.

(** A signed transaction: the map [{sig, txn}], with 64 bytes of
    signature. *)
Definition signed (unsigned : bytes) : bytes :=
  ([Byte.x82; Byte.xa3; Byte.x73; Byte.x69; Byte.x67; Byte.xc4; Byte.x40]
   ++ repeat Byte.x2a 64
   ++ [Byte.xa3; Byte.x74; Byte.x78; Byte.x6e]
   ++ unsigned)%list.

(** A backend that answers each request of the mint flow with what the
    front end reads of it, and a wallet that signs what it is given. *)
Definition world : World :=
  {| fetch := fun _ url _ =>
       if String.eqb url Mint.url_mint then
         answer [("funding_txn", VStr funding_txn);
                 ("escrow_address", VStr escrow)]
       else if String.eqb url Mint.url_submit_funding then
         answer [("txid", VStr funding_txid)]
       else if String.eqb url Mint.url_create_nft then
         answer [("asset_id", VNum (of_int asset_id))]
       else if String.eqb url Mint.url_optin then
         answer [("optin_txn", VStr optin_txn)]
       else if String.eqb url Mint.url_submit_optin then
         answer [("txid", VStr optin_txid)]
       else if String.eqb url Mint.url_transfer_nft then
         answer [("txid", VStr transfer_txid)]
       else Throw (ErrorObj "TypeError" "Failed to fetch");
     signTransaction := fun _ groups =>
       match groups with
       | [[ {| txn := TransactionOf unsigned |} ]] => Ok [signed unsigned]
       | _ => Throw (ErrorObj "Error" "Transaction signing failed")
       end;
     accountInformation := fun _ _ => Ok (VObj []);
     connect := fun _ => Ok [creator];
     disconnect := fun _ => Ok tt;
     connector := fun _ => true |}.

(** The mint form filled in for 5 ALGO by the connected [creator]. *)
Definition form : Mint.State :=
  {| Mint.walletAddress := Some creator;
     Mint.assetName := "Ticket";
     Mint.assetUnit := "TCK";
     Mint.algoAmount := S754_finite false 5629499534213120 (-50) |}.

End Platform.

(* ================================================================== *)
(** ** The progress of a mint run *)
(* ================================================================== *)

Module Progress.
Import JS Browser.

(** The document of an answer the handler goes on with: the response is
    [ok] and its body can be read. *)
Definition answered (reply : Outcome Response) : option value :=
  match reply with
  | Ok res =>
      if ok res
      then match json res with Ok v => Some v | Throw _ => None end
      else None
  | Throw _ => None
  end.

Section Steps.
Variable host : Host.

(** [base64ToTxn] returns a transaction for [b64Txn]. *)
Definition decodable (b64Txn : value) : bool :=
  match atob host (Mint.toStr host b64Txn) with
  | Ok binaryString =>
      Trace.resolved
        (decodeUnsignedTransaction host (Mint.charCodes binaryString))
  | Throw _ => false
  end.

Definition decodes (data : value) (member : string) : bool :=
  match get data member with
  | Ok b64Txn => decodable b64Txn
  | Throw _ => false
  end.

(** What the handler does with the document of an answer works: the
    transaction the mint and the opt-in answers hold can be decoded, the
    asset id can be read off the creation answer. *)
Definition usable (url : string) (data : value) : bool :=
  if String.eqb url Mint.url_mint then decodes data "funding_txn"
  else if String.eqb url Mint.url_create_nft
  then Trace.resolved (get data "asset_id")
  else if String.eqb url Mint.url_optin then decodes data "optin_txn"
  else true.

(** The exchange [e] completed: a request was answered with an [ok]
    response whose document could be read and used, the wallet signed and
    returned at least one signed transaction. *)
Definition completed (e : Event) : bool :=
  match e with
  | Fetch url _ reply =>
      match answered reply with
      | Some data => usable url data
      | None => false
      end
  | SignTransaction _ reply =>
      match reply with
      | Ok (_ :: _) => true
      | _ => false
      end
  | _ => true
  end.

End Steps.


End Progress.

(* ------------------------------------------------------------------ *)
(** *** Facts about [Math_floor] *)
(* ------------------------------------------------------------------ *)

Section FloorFacts.
Import JS.

Lemma signed_shift (s : bool) (p : positive) (j : Z) :
  0 <= j -> signed s (Z.to_pos (Z.pos p * 2 ^ j)) = signed s p * 2 ^ j.
Proof.
  intros Hj.
  assert (Hpow : 0 < 2 ^ j) by (apply Z.pow_pos_nonneg; lia).
  assert (Hm : Z.pos (Z.to_pos (Z.pos p * 2 ^ j)) = Z.pos p * 2 ^ j)
    by (apply Z2Pos.id; lia).
  destruct s; unfold signed.
  - change (Z.neg ?q) with (- Z.pos q). rewrite Hm. ring.
  - exact Hm.
Qed.

Lemma number_to_Z_shift (s : bool) (p : positive) (j : Z) :
  0 <= j ->
  number_to_Z (S754_finite s (Z.to_pos (Z.pos p * 2 ^ j)) (- j))
  = Some (signed s p).
Proof.
  intros Hj.
  assert (Hpow : 0 < 2 ^ j) by (apply Z.pow_pos_nonneg; lia).
  unfold number_to_Z.
  destruct (Z.leb_spec 0 (- j)) as [H0 | H0].
  - assert (j = 0) by lia. subst j.
    rewrite signed_shift by lia. simpl. f_equal. ring.
  - rewrite Z.opp_involutive.
    rewrite (Z2Pos.id (Z.pos p * 2 ^ j)) by lia.
    rewrite Z.mod_mul, Z.eqb_refl by lia.
    rewrite signed_shift by lia.
    f_equal. apply Z.div_mul. lia.
Qed.

Lemma number_to_Z_normalise (s : bool) (p : positive) :
  number_to_Z (normalise s p) = Some (signed s p).
Proof.
  unfold normalise, prec.
  destruct (Z.leb_spec (Z.log2 (Z.pos p) + 1) 53) as [Hle | Hgt].
  - replace (Z.log2 (Z.pos p) + 1 - 53)
      with (- (53 - (Z.log2 (Z.pos p) + 1))) by ring.
    apply number_to_Z_shift. lia.
  - unfold number_to_Z. change (0 <=? 0) with true. cbv iota.
    rewrite Z.pow_0_r, Z.mul_1_r. reflexivity.
Qed.

Lemma number_to_Z_of_int (z : Z) : number_to_Z (of_int z) = Some z.
Proof.
  destruct z as [| p | p]; simpl of_int.
  - reflexivity.
  - apply (number_to_Z_normalise false).
  - apply (number_to_Z_normalise true).
Qed.

(** The floor of a finite number is an integer: the greatest integer
    below [(-1)^s * m * 2^e]. *)
Lemma Math_floor_finite (s : bool) (m : positive) (e : Z) :
  number_to_Z (Math_floor (S754_finite s m e)) =
  Some (if 0 <=? e then signed s m * 2 ^ e else signed s m / 2 ^ (- e)).
Proof.
  unfold Math_floor.
  destruct (Z.leb_spec 0 e) as [He | He].
  - unfold number_to_Z. destruct (Z.leb_spec 0 e); [reflexivity | lia].
  - apply number_to_Z_of_int.
Qed.

Lemma Math_floor_integer (x : number) :
  isFinite x = true -> exists z, number_to_Z (Math_floor x) = Some z.
Proof.
  destruct x as [s | s | | s m e]; simpl isFinite; intros H;
    try discriminate.
  - exists 0. reflexivity.
  - eexists. apply Math_floor_finite.
Qed.

Lemma Math_floor_not_finite (x : number) :
  isFinite x = false -> Math_floor x = x.
Proof. destruct x; simpl; intros; congruence. Qed.

End FloorFacts.

(** The numbers of [Sample] are binary64 numbers, and they are the ones
    the decimal literals [5], [200], [500], [0.0000005] and [1e303] read as: the
    nearest to them. *)
Lemma samples_valid :
  forallb (valid_binary JS.prec JS.emax)
    [JS.million; Sample.n200; Sample.n500; Sample.five;
     Sample.half_micro; Sample.huge]
  = true.
Proof. vm_compute. reflexivity. Qed.

Lemma samples_are_the_literals :
  JS.number_to_Z JS.million = Some 1000000 /\
  JS.number_to_Z Sample.n200 = Some 200 /\
  JS.number_to_Z Sample.n500 = Some 500 /\
  JS.number_to_Z Sample.five = Some 5 /\
  2 * Z.abs (4722366482869645 * 10 ^ 7 - 5 * 2 ^ 73) <= 10 ^ 7 /\
  2 * Z.abs (6567258882077402 * 2 ^ 954 - 10 ^ 303) <= 2 ^ 954.
Proof. vm_compute. repeat split; discriminate. Qed.

(** [Math.floor(2.5)], [Math.floor(-2.5)], [Math.floor(-0.5)],
    [Math.floor(0.5)]. *)
Lemma Math_floor_samples :
  JS.number_to_Z (JS.Math_floor (S754_finite false 5 (-1))) = Some 2 /\
  JS.number_to_Z (JS.Math_floor (S754_finite true 5 (-1))) = Some (-3) /\
  JS.number_to_Z (JS.Math_floor (S754_finite true 1 (-1))) = Some (-1) /\
  JS.Math_floor (S754_finite false 1 (-1)) = JS.zero.
Proof. vm_compute. repeat split. Qed.

(* ------------------------------------------------------------------ *)
(** *** The handler monad *)
(* ------------------------------------------------------------------ *)

Section MonadFacts.
Import JS Browser.
Context {A B : Type}.

Lemma bind_events (m : M A) (k : A -> M B) (h : list Event) :
  snd (bind m k h) =
  (snd (m h) ++ match fst (m h) with
                | Ok a => snd (k a (h ++ snd (m h))%list)
                | Throw _ => []
                end)%list.
Proof.
  unfold bind. destruct (m h) as [[a | t] es]; simpl.
  - destruct (k a (h ++ es)%list) as [r es']. reflexivity.
  - now rewrite app_nil_r.
Qed.

Lemma bind_outcome (m : M A) (k : A -> M B) (h : list Event) :
  fst (bind m k h) =
  match fst (m h) with
  | Ok a => fst (k a (h ++ snd (m h))%list)
  | Throw t => Throw t
  end.
Proof.
  unfold bind. destruct (m h) as [[a | t] es]; simpl.
  - destruct (k a (h ++ es)%list) as [r es']. reflexivity.
  - reflexivity.
Qed.

Lemma try_catch_events (m : M A) (handler : Thrown -> M A) (h : list Event) :
  snd (try_catch m handler h) =
  (snd (m h) ++ match fst (m h) with
                | Ok _ => []
                | Throw t => snd (handler t (h ++ snd (m h))%list)
                end)%list.
Proof.
  unfold try_catch. destruct (m h) as [[a | t] es]; simpl.
  - now rewrite app_nil_r.
  - destruct (handler t (h ++ es)%list) as [r es']. reflexivity.
Qed.

Lemma finally_events (m : M A) (fin : M unit) (h : list Event) :
  snd (finally m fin h) = (snd (m h) ++ snd (fin (h ++ snd (m h))%list))%list.
Proof.
  unfold finally. destruct (m h) as [r es]; simpl.
  destruct (fin (h ++ es)%list) as [[u | t] es']; reflexivity.
Qed.

End MonadFacts.

(* ------------------------------------------------------------------ *)
(** *** Traces and scripts *)
(* ------------------------------------------------------------------ *)

Section TraceFacts.
Import JS Browser Trace.

Lemma calls_app (a b : list Event) : calls (a ++ b) = (calls a ++ calls b)%list.
Proof.
  induction a as [| e a IH]; simpl; [reflexivity |].
  destruct (call_of e); simpl; now rewrite IH.
Qed.

Lemma reported_app (a b : list Event) :
  reported (a ++ b) = reported a || reported b.
Proof. apply existsb_app. Qed.

Lemma partial_oks (script : list Call) : partial script (oks script).
Proof.
  induction script as [| c script IH]; simpl; constructor; exact IH.
Qed.

Lemma partial_app_oks (s1 s2 : list Call) (r : list (Call * bool)) :
  partial s2 r -> partial (s1 ++ s2) (oks s1 ++ r).
Proof.
  intros H. induction s1 as [| c s1 IH]; simpl; [exact H |].
  constructor. exact IH.
Qed.

Lemma partial_weaken (s1 s2 : list Call) (r : list (Call * bool)) :
  partial s1 r -> partial (s1 ++ s2) r.
Proof.
  induction 1; simpl; constructor; assumption.
Qed.

Lemma partial_nil_inv (r : list (Call * bool)) : partial [] r -> r = [].
Proof. inversion 1; reflexivity. Qed.

(** What [partial] says, spelled out: the calls made are the first [n]
    calls of the script, in its order... *)
Lemma partial_prefix (script : list Call) (r : list (Call * bool)) :
  partial script r -> exists n, map fst r = firstn n script.
Proof.
  induction 1 as [script | c script | c script rest _ [n IH]].
  - exists 0%nat. reflexivity.
  - exists 1%nat. reflexivity.
  - exists (S n). simpl. now rewrite IH.
Qed.

(** ... every call that is followed by another one went well... *)
Lemma partial_earlier_ok (script : list Call) (r : list (Call * bool)) :
  partial script r ->
  forall i, (S i < List.length r)%nat -> nth i (map snd r) false = true.
Proof.
  induction 1 as [script | c script | c script rest _ IH]; simpl; intros i Hi.
  - lia.
  - lia.
  - destruct i as [| i]; [reflexivity |]. apply IH. lia.
Qed.

(** ... and nothing is called after a call that failed. *)
Lemma partial_failure_last (script : list Call) (r : list (Call * bool)) :
  partial script r ->
  forall pre c post, r = (pre ++ (c, false) :: post)%list -> post = [].
Proof.
  induction 1 as [script | c0 script | c0 script rest _ IH]; intros pre c post E.
  - destruct pre; discriminate.
  - destruct pre as [| x pre]; simpl in E.
    + now inversion E.
    + inversion E. destruct pre; discriminate.
  - destruct pre as [| x pre]; simpl in E.
    + discriminate.
    + inversion E. eapply IH. eassumption.
Qed.

Lemma partial_filter (keep : Call -> bool) (script : list Call)
  (r : list (Call * bool)) :
  partial script r ->
  partial (filter keep script) (filter (fun c => keep (fst c)) r).
Proof.
  induction 1 as [script | c script | c script rest _ IH]; simpl.
  - constructor.
  - destruct (keep c); constructor.
  - destruct (keep c); [constructor |]; exact IH.
Qed.



End TraceFacts.

(* ------------------------------------------------------------------ *)
(** *** Rules for handlers that follow a script *)
(* ------------------------------------------------------------------ *)

Section ScriptRules.
Import JS Browser Trace.
Context {A B : Type}.

Lemma quiet_lift (o : Outcome A) : quiet [] (lift o).
Proof. intros h. destruct o; simpl; repeat constructor. Qed.

Lemma quiet_ret (a : A) : quiet [] (ret a).
Proof. intros h. simpl. split; reflexivity. Qed.

Lemma quiet_throw (t : Thrown) : quiet [] (@throw A t).
Proof. intros h. simpl. split; [reflexivity | constructor]. Qed.

Lemma quiet_bind (s1 s2 : list Call) (m : M A) (k : A -> M B) :
  quiet s1 m -> (forall a, quiet s2 (k a)) -> quiet (s1 ++ s2) (bind m k).
Proof.
  intros Hm Hk h. specialize (Hm h).
  rewrite bind_events, bind_outcome.
  destruct (m h) as [[a | t] es]; simpl in *; destruct Hm as [Hr Hc].
  - specialize (Hk a (h ++ es)%list).
    destruct (k a (h ++ es)%list) as [r es']; simpl in *.
    destruct Hk as [Hr' Hc'].
    rewrite reported_app, calls_app, Hr, Hr', Hc. split; [reflexivity |].
    destruct r.
    + rewrite Hc'. unfold oks. now rewrite map_app.
    + now apply partial_app_oks.
  - rewrite app_nil_r. split; [exact Hr |]. now apply partial_weaken.
Qed.

Lemma silent_bind (m : M A) (k : A -> M B) :
  silent m -> (forall a, silent (k a)) -> silent (bind m k).
Proof.
  intros Hm Hk h. rewrite bind_events, calls_app, Hm.
  destruct (fst (m h)); [apply Hk | reflexivity].
Qed.

Lemma silent_lift (o : Outcome A) : silent (lift o).
Proof. intros h. reflexivity. Qed.

Lemma silent_good (m : M A) : silent m -> good [] m.
Proof.
  intros Hm h. rewrite Hm. split; [constructor | reflexivity].
Qed.

Lemma quiet_good (s1 s2 : list Call) (m : M A) :
  quiet s1 m -> good (s1 ++ s2) m.
Proof.
  intros Hm h. destruct (Hm h) as [Hr Hc]. split.
  - apply partial_weaken. destruct (fst (m h)); [| exact Hc].
    rewrite Hc. apply partial_oks.
  - rewrite Hr. discriminate.
Qed.

Lemma good_bind (s1 s2 : list Call) (m : M A) (k : A -> M B) :
  quiet s1 m -> (forall a, good s2 (k a)) -> good (s1 ++ s2) (bind m k).
Proof.
  intros Hm Hk h. specialize (Hm h).
  rewrite bind_events.
  destruct (m h) as [[a | t] es]; simpl in *; destruct Hm as [Hr Hc].
  - specialize (Hk a (h ++ es)%list).
    destruct (k a (h ++ es)%list) as [r es']; simpl in *.
    destruct Hk as [Hp Hs].
    rewrite reported_app, calls_app, Hr, Hc. simpl. split.
    + now apply partial_app_oks.
    + intros H. rewrite (Hs H). unfold oks. now rewrite map_app.
  - rewrite app_nil_r, Hr. split; [now apply partial_weaken | discriminate].
Qed.

Lemma good_try_catch (script : list Call) (m : M A) (handler : Thrown -> M A) :
  good script m -> (forall t, quiet [] (handler t)) ->
  good script (try_catch m handler).
Proof.
  intros Hm Hh h. rewrite try_catch_events.
  destruct (Hm h) as [Hp Hs].
  destruct (fst (m h)) as [a | t].
  - rewrite app_nil_r. split; assumption.
  - destruct (Hh t (h ++ snd (m h))%list) as [Hr Hc].
    assert (E : calls (snd (handler t (h ++ snd (m h))%list)) = []).
    { destruct (fst (handler t (h ++ snd (m h))%list)).
      - exact Hc.
      - now apply partial_nil_inv. }
    rewrite calls_app, reported_app, E, Hr, app_nil_r, orb_false_r.
    split; assumption.
Qed.

Lemma good_finally (script : list Call) (m : M A) (fin : M unit) :
  good script m -> quiet [] fin -> good script (finally m fin).
Proof.
  intros Hm Hf h. rewrite finally_events.
  destruct (Hm h) as [Hp Hs].
  destruct (Hf (h ++ snd (m h))%list) as [Hr Hc].
  assert (E : calls (snd (fin (h ++ snd (m h))%list)) = []).
  { destruct (fst (fin (h ++ snd (m h))%list)).
    - exact Hc.
    - now apply partial_nil_inv. }
  rewrite calls_app, reported_app, E, Hr, app_nil_r, orb_false_r.
  split; assumption.
Qed.

End ScriptRules.

Section ScriptRulesUnit.
Import JS Browser Trace.

Lemma quiet_emit (e : Event) :
  call_of e = None -> is_success e = false -> quiet [] (emit e).
Proof.
  intros Hc Hs h. simpl. unfold reported. simpl. rewrite Hc, Hs.
  split; reflexivity.
Qed.

Lemma silent_emit (e : Event) : call_of e = None -> silent (emit e).
Proof. intros Hc h. simpl. now rewrite Hc. Qed.

(** The two shapes in which the rules are applied along a script. *)
Lemma good_skip {A B : Type} (script : list Call) (m : M A) (k : A -> M B) :
  quiet [] m -> (forall a, good script (k a)) -> good script (bind m k).
Proof. intros Hm Hk. exact (good_bind [] script m k Hm Hk). Qed.

Lemma good_call {A B : Type} (c : Call) (script : list Call)
  (m : M A) (k : A -> M B) :
  quiet [c] m -> (forall a, good script (k a)) -> good (c :: script) (bind m k).
Proof. intros Hm Hk. exact (good_bind [c] script m k Hm Hk). Qed.

End ScriptRulesUnit.

(* ------------------------------------------------------------------ *)
(** *** Mint.tsx: the pieces of [handleSubmit] *)
(* ------------------------------------------------------------------ *)

Section MintPieces.
Import JS Browser Trace Mint.
Variable host : Host.
Variable world : World.

Lemma quiet_post (url : string) (payload : value) (fallback : Response -> string) :
  quiet [CFetch url] (post host world url payload fallback).
Proof.
  intros h. unfold post, bind, await_fetch, lift, throw.
  destruct (fetch world h url _) as [res | t] eqn:E; simpl.
  - destruct (ok res) eqn:Hok; simpl.
    + destruct (json res); simpl; unfold reported; simpl; rewrite Hok;
        split; try reflexivity. apply (partial_oks [CFetch url]).
    + destruct (json res) as [errorData | t]; simpl.
      * destruct (get errorData "detail"); simpl; unfold reported; simpl;
          rewrite Hok; split; try reflexivity; constructor.
      * unfold reported; simpl. rewrite Hok. split; [reflexivity | constructor].
  - split; [reflexivity | constructor].
Qed.

Lemma quiet_signTransaction (groups : list (list SignerTransaction)) :
  quiet [CSign] (await_signTransaction world groups).
Proof.
  intros h. unfold await_signTransaction. simpl.
  destruct (signTransaction world h groups); simpl;
    split; try reflexivity; constructor.
Qed.

Lemma quiet_base64ToTxn (b64Txn : value) : quiet [] (base64ToTxn host b64Txn).
Proof.
  intros h. unfold base64ToTxn, try_catch, bind, lift, throw, console_error, emit.
  destruct (atob host _) as [binaryString | t]; simpl.
  - destruct (decodeUnsignedTransaction host _); simpl;
      split; try reflexivity; constructor.
  - split; [reflexivity | constructor].
Qed.

Lemma quiet_uint8ToBase64 (u8 : option bytes) : quiet [] (uint8ToBase64 host u8).
Proof.
  destruct u8; simpl; [apply quiet_ret | apply quiet_throw].
Qed.

End MintPieces.

(* ------------------------------------------------------------------ *)
(** *** Mint.tsx: [handleSubmit] follows its script *)
(* ------------------------------------------------------------------ *)

Section MintScript.
Import JS Browser Trace Mint.
Variable host : Host.
Variable world : World.

Ltac quiet_piece :=
  first [ apply quiet_lift
        | apply quiet_base64ToTxn
        | apply quiet_uint8ToBase64
        | apply quiet_emit; reflexivity ].

Ltac silent_piece :=
  first [ apply silent_lift | apply silent_emit; reflexivity ].

Ltac along_script :=
  repeat first
    [ apply good_skip; [quiet_piece | intros ?]
    | apply good_call;
      [first [apply quiet_post | apply quiet_signTransaction] | intros ?] ].

Lemma mint_steps_good (w : string) (s : State) :
  good mint_script (mint_steps host world w s).
Proof.
  unfold mint_steps, mint_script, alert, console_log.
  along_script.
  apply silent_good.
  repeat (apply silent_bind; [silent_piece | intros ?]).
  silent_piece.
Qed.

Lemma handleSubmit_good (s : State) :
  good mint_script (handleSubmit host world s).
Proof.
  assert (Halert : forall msg, good mint_script (alert msg)).
  { intros msg. apply (quiet_good [] mint_script).
    apply quiet_emit; reflexivity. }
  unfold handleSubmit.
  destruct (walletAddress s) as [w |]; [| apply Halert].
  destruct (negb (str_truthy w)); [apply Halert |].
  destruct (_ || _); [apply Halert |].
  apply good_skip; [quiet_piece | intros _].
  apply good_skip; [quiet_piece | intros _].
  apply good_finally; [| quiet_piece].
  apply good_try_catch; [apply mint_steps_good |].
  intros t. unfold console_error, alert.
  apply (quiet_bind [] []); [quiet_piece | intros _].
  apply (quiet_bind [] []); [quiet_piece | intros _].
  apply quiet_emit; reflexivity.
Qed.

End MintScript.

(* ------------------------------------------------------------------ *)
(** *** Mint.tsx: validation and the first request *)
(* ------------------------------------------------------------------ *)

Section MintRequest.
Import JS Browser Trace Mint.
Variable host : Host.
Variable world : World.

(** Without a wallet nothing happens but an alert. *)
Lemma handleSubmit_without_wallet (s : State) (h : list Event) :
  Redeem.connected (walletAddress s) = false ->
  handleSubmit host world s h = (Ok tt, [Alert "Connect wallet first!"]).
Proof.
  unfold handleSubmit, Redeem.connected.
  destruct (walletAddress s) as [w |]; [| reflexivity].
  intros ->. reflexivity.
Qed.

(** The guard of [handleSubmit]: an empty name, an empty unit or an
    amount [<= 0] ends the handler with an alert; nothing is requested. *)
Lemma handleSubmit_invalid (s : State) (h : list Event) :
  negb (str_truthy (assetName s)) || negb (str_truthy (assetUnit s))
    || leb (algoAmount s) zero = true ->
  Redeem.connected (walletAddress s) = true ->
  handleSubmit host world s h =
  (Ok tt, [Alert "Please fill all fields with valid values!"]).
Proof.
  unfold handleSubmit, Redeem.connected.
  destruct (walletAddress s) as [w |]; [| discriminate].
  intros Hbad ->. cbn [negb]. rewrite Hbad. reflexivity.
Qed.

(** A request that passes the guard is posted to [/mint] first, with
    [locked_amount = Math.floor(algoAmount * 1_000_000)]. *)
Lemma handleSubmit_first_request (s : State) (w : string) (h : list Event) :
  walletAddress s = Some w ->
  str_truthy w = true ->
  negb (str_truthy (assetName s)) || negb (str_truthy (assetUnit s))
    || leb (algoAmount s) zero = false ->
  first_request (snd (handleSubmit host world s h)) =
  Some (url_mint, JSON_stringify (mint_payload w s)).
Proof.
  intros Hw Hc Hv. unfold handleSubmit. rewrite Hw, Hc. cbn [negb].
  rewrite Hv.
  rewrite bind_events. cbn [emit fst snd app first_request].
  rewrite bind_events. cbn [emit fst snd app first_request].
  rewrite finally_events, try_catch_events.
  unfold mint_steps at 1.
  rewrite bind_events. cbn [emit fst snd app first_request].
  rewrite <- app_assoc. cbn [app first_request].
  rewrite bind_events. unfold post at 1.
  rewrite bind_events. unfold await_fetch at 1.
  cbn [fst snd app first_request body]. reflexivity.
Qed.

(** Whatever is requested was let through by the guard: the wallet is
    connected, name and unit are not empty and the amount is not [<= 0]. *)
Lemma handleSubmit_guard (s : State) (h : list Event) :
  first_request (snd (handleSubmit host world s h)) <> None ->
  Redeem.connected (walletAddress s) = true /\
  str_truthy (assetName s) = true /\
  str_truthy (assetUnit s) = true /\
  leb (algoAmount s) zero = false.
Proof.
  intros H.
  destruct (Redeem.connected (walletAddress s)) eqn:Hc.
  - destruct (negb (str_truthy (assetName s)) || negb (str_truthy (assetUnit s))
              || leb (algoAmount s) zero) eqn:Hv.
    + rewrite (handleSubmit_invalid s h Hv Hc) in H. now elim H.
    + apply orb_false_elim in Hv. destruct Hv as [Hv Ha].
      apply orb_false_elim in Hv. destruct Hv as [Hn Hu].
      apply negb_false_iff in Hn, Hu. repeat split; assumption.
  - rewrite (handleSubmit_without_wallet s h Hc) in H. now elim H.
Qed.

(** A request that passes the guard with a finite product carries a
    whole number of microAlgos. *)
Lemma posted_locked_amount_whole (s : State) (w : string) (h : list Event) :
  walletAddress s = Some w ->
  str_truthy w = true ->
  negb (str_truthy (assetName s)) || negb (str_truthy (assetUnit s))
    || leb (algoAmount s) zero = false ->
  isFinite (mul (algoAmount s) million) = true ->
  exists n z,
    first_request (snd (handleSubmit host world s h)) =
    Some (url_mint,
          VObj [("creator_address", VStr w);
                ("asset_name", VStr (assetName s));
                ("asset_unit", VStr (assetUnit s));
                ("locked_amount", VNum n)]) /\
    number_to_Z n = Some z.
Proof.
  intros Hw Hc Hv Hfin.
  rewrite (handleSubmit_first_request s w h Hw Hc Hv).
  destruct (Math_floor_integer _ Hfin) as [z Hz].
  unfold mint_payload. cbn [JSON_stringify flat_map app].
  destruct (Math_floor (mul (algoAmount s) million)) as [sg | sg | | sg m e] eqn:E;
    try discriminate; cbn [isFinite].
  - exists zero, 0. split; reflexivity.
  - exists (S754_finite sg m e), z. split; [reflexivity | exact Hz].
Qed.


End MintRequest.

(** When [algoAmount * 1_000_000] is finite, the posted [locked_amount]
    is a whole number of microAlgos: the floor of the product. *)
Lemma locked_amount_whole (a : JS.number) :
  JS.isFinite (JS.mul a JS.million) = true ->
  exists z, JS.number_to_Z (JS.Math_floor (JS.mul a JS.million)) = Some z.
Proof. apply Math_floor_integer. Qed.

(** When the product is not finite, the posted [locked_amount] is [null]. *)
Lemma locked_amount_null (a : JS.number) :
  JS.isFinite (JS.mul a JS.million) = false ->
  JS.JSON_stringify (JS.VNum (JS.Math_floor (JS.mul a JS.million))) = JS.VNull.
Proof.
  intros H. rewrite (Math_floor_not_finite _ H). simpl. now rewrite H.
Qed.

(** The guard compares with [<=]; a NaN amount is not [<= 0]. *)
Lemma guard_passes_NaN : JS.leb JS.NaN JS.zero = false.
Proof. reflexivity. Qed.

(* ------------------------------------------------------------------ *)
(** *** Mint.tsx: the claims *)
(* ------------------------------------------------------------------ *)

Section MintClaims.
Import JS Browser Trace Mint.

(** C4, at the failing input: with half a microAlgo (0.0000005 ALGO) in
    the amount field the guard [algoAmount <= 0] lets the request through;
    the locked amount it carries is [Math.floor(0.5) = 0], which is not
    strictly positive, and the request is posted to [/mint] all the same,
    whatever the backend and the wallet are. *)
Theorem sub_micro_amount_is_posted
  (host : Host) (world : World) (h : list Event) :
  number_to_Z (Math_floor (mul Sample.half_micro million)) = Some 0 /\
  first_request (snd (handleSubmit host world
                        (Sample.form Sample.half_micro) h)) =
  Some (url_mint,
        VObj [("creator_address", VStr "ALICE");
              ("asset_name", VStr "Ticket");
              ("asset_unit", VStr "TCK");
              ("locked_amount", VNum zero)]).
Proof.
  split; [vm_compute; reflexivity |].
  rewrite (handleSubmit_first_request host world _ "ALICE" h);
    vm_compute; reflexivity.
Qed.

(** C6, at the failing input: with 1e303 in the amount field the product
    [algoAmount * 1_000_000] overflows to [Infinity], [Math.floor] leaves
    it as it is, and the document posted to [/mint] carries
    [locked_amount: null], not a whole number of microAlgos. *)
Theorem overflowing_amount_is_posted_as_null
  (host : Host) (world : World) (h : list Event) :
  mul Sample.huge million = S754_infinity false /\
  first_request (snd (handleSubmit host world (Sample.form Sample.huge) h)) =
  Some (url_mint,
        VObj [("creator_address", VStr "ALICE");
              ("asset_name", VStr "Ticket");
              ("asset_unit", VStr "TCK");
              ("locked_amount", VNull)]).
Proof.
  split; [vm_compute; reflexivity |].
  rewrite (handleSubmit_first_request host world _ "ALICE" h);
    vm_compute; reflexivity.
Qed.

(** A run in which the backend refuses to create the asset: the run stops
    there, after the funding; the opt-in and the transfer are not
    attempted, the failure is shown to the user, success is not
    reported. *)
Lemma create_nft_refused :
  let t := events (handleSubmit Sample.host
                     (Sample.refusing url_create_nft)
                     (Sample.form Sample.five)) in
  calls t = [(CFetch url_mint, true); (CSign, true);
             (CFetch url_submit_funding, true);
             (CFetch url_create_nft, false)] /\
  reported t = false /\
  In (Alert ("Minting failed: escrow not funded" ++ nl ++ nl
             ++ "Check console for details.")) t.
Proof.
  vm_compute. repeat split.
  repeat (first [left; reflexivity | right]).
Qed.

End MintClaims.

(* ------------------------------------------------------------------ *)
(** *** Redeem.tsx *)
(* ------------------------------------------------------------------ *)

Section RedeemFacts.
Import JS Browser Trace Redeem.
Variable host : Host.
Variable world : World.

(** With an empty list the page shows one of its two messages. *)
Lemma render_empty (a : option string) (s : State) :
  nfts s = [] ->
  render a s = if connected a then NoRedeemableNFTs else ConnectYourWallet.
Proof.
  intros E. unfold render. rewrite E. destruct (connected a); reflexivity.
Qed.

(** With an empty list only a change of wallet is possible, and it leaves
    the state as it is. *)
Lemma act_empty (p p' : Page) (a : Action) (m : M unit) :
  nfts (state p) = [] ->
  act host world p a = Some (p', m) ->
  is_wallet_changed a = true /\ state p' = state p.
Proof.
  intros E. destruct a as [a' | i |]; simpl.
  - intros H. inversion H. split; reflexivity.
  - rewrite (render_empty _ _ E). destruct (connected (wallet p)); discriminate.
  - rewrite (render_empty _ _ E). destruct (connected (wallet p)); discriminate.
Qed.

Lemma session_empty (actions : list Action) :
  forall (p p' : Page) (h t : list Event),
    nfts (state p) = [] ->
    session host world p h actions = Some (p', t) ->
    state p' = state p /\ forallb is_wallet_changed actions = true.
Proof.
  induction actions as [| a actions IH]; simpl; intros p p' h t E H.
  - inversion H. split; reflexivity.
  - destruct (act host world p a) as [[p1 m] |] eqn:Ha; [| discriminate].
    destruct (act_empty p p1 a m E Ha) as [Hw Hs].
    assert (E1 : nfts (state p1) = []) by (rewrite Hs; exact E).
    destruct (IH p1 p' (h ++ snd (m h))%list t E1 H) as [Hs' Hall].
    rewrite Hw, Hall. split; [congruence | reflexivity].
Qed.

(** No handler of the page submits anything. *)
Lemma fetchNFTs_submits_nothing (a : option string) (h : list Event) :
  existsb submits (snd (fetchNFTs world a h)) = false.
Proof.
  unfold fetchNFTs. destruct a as [w |]; [| reflexivity].
  destruct (negb (str_truthy w)); [reflexivity |].
  unfold try_catch, bind, await_accountInformation, ret, console_error, emit.
  destruct (accountInformation world h w); reflexivity.
Qed.

Lemma handleBurn_submits_nothing (sel : option NFTAsset) (h : list Event) :
  existsb submits (snd (handleBurn host sel h)) = false.
Proof. destruct sel; reflexivity. Qed.

Lemma act_submits_nothing (p p' : Page) (a : Action) (m : M unit)
  (h : list Event) :
  act host world p a = Some (p', m) ->
  existsb submits (snd (m h)) = false.
Proof.
  destruct a as [a' | i |]; simpl.
  - intros H. inversion H.
    destruct (same_address (wallet p) a');
      [reflexivity | apply fetchNFTs_submits_nothing].
  - destruct (render (wallet p) (state p)); try discriminate.
    destruct (nth_error cards i); [| discriminate].
    intros H. inversion H. reflexivity.
  - destruct (render (wallet p) (state p)); try discriminate.
    intros H. inversion H. apply handleBurn_submits_nothing.
Qed.

Lemma session_submits_nothing (actions : list Action) :
  forall (p p' : Page) (h t : list Event),
    existsb submits h = false ->
    session host world p h actions = Some (p', t) ->
    existsb submits t = false.
Proof.
  induction actions as [| a actions IH]; simpl; intros p p' h t Hh H.
  - inversion H. subst. exact Hh.
  - destruct (act host world p a) as [[p1 m] |] eqn:Ha; [| discriminate].
    apply (IH p1 p' (h ++ snd (m h))%list t); [| exact H].
    rewrite existsb_app, Hh. apply (act_submits_nothing p p1 a m h Ha).
Qed.

(** The read that does run: a connected wallet has its account
    information fetched, once, and the answer is dropped. *)
Lemma fetchNFTs_reads (a : option string) (h : list Event) :
  map fst (calls (snd (fetchNFTs world a h))) =
  if connected a then [CAccountInformation] else [].
Proof.
  unfold fetchNFTs, connected. destruct a as [w |]; [| reflexivity].
  destruct (str_truthy w); cbn [negb]; [| reflexivity].
  unfold try_catch, bind, await_accountInformation, ret, console_error, emit.
  destruct (accountInformation world h w); reflexivity.
Qed.

End RedeemFacts.

Section RedeemClaims.
Import JS Browser Trace Redeem.

(** C8: the burn handler, for every selected NFT, does one thing: it
    shows an alert that carries the asset id.  And nothing the redeem
    page can do submits a request to the backend or a transaction to the
    wallet: every trace of a visit of the page is free of them. *)
Theorem redeem_interface_submits_nothing
  (host : Host) (world : World) (nft : NFTAsset) (h : list Event)
  (a : option string) (actions : list Action) :
  handleBurn host (Some nft) h =
    (Ok tt, [Alert ("Burn NFT with Asset ID: "
                    ++ Number_toString host (assetId nft))]) /\
  existsb submits (visit_events host world a actions) = false.
Proof.
  split; [reflexivity |].
  unfold visit_events, visit.
  destruct (session host world (mount a) _ actions) as [[p t] |] eqn:H;
    [| reflexivity].
  apply (session_submits_nothing host world actions _ _ _ _ 
           (fetchNFTs_submits_nothing world a []) H).
Qed.

(** C9: whatever the connected wallet holds and whatever happens on the
    page, the list of NFTs stays empty and no NFT is selected, although
    the effect does fetch the account information of a connected wallet;
    the page shows the "no redeemable NFTs" message to a connected wallet,
    and the only actions that were possible are changes of wallet: no card
    and no burn button was ever there to be clicked. *)
Theorem redeemable_list_stays_empty
  (host : Host) (world : World) (a : option string) (h : list Event)
  (actions : list Action) (p : Page) (t : list Event) :
  visit host world a h actions = Some (p, t) ->
  map fst (calls (snd (fetchNFTs world a h))) =
    (if connected a then [CAccountInformation] else []) /\
  nfts (state p) = [] /\
  selectedNFT (state p) = None /\
  render (wallet p) (state p) =
    (if connected (wallet p) then NoRedeemableNFTs else ConnectYourWallet) /\
  forallb is_wallet_changed actions = true.
Proof.
  unfold visit. intros H.
  destruct (session_empty host world actions (mount a) p _ t eq_refl H)
    as [Hs Hall].
  assert (E : nfts (state p) = []) by (rewrite Hs; reflexivity).
  repeat split.
  - apply fetchNFTs_reads.
  - exact E.
  - rewrite Hs. reflexivity.
  - apply render_empty. exact E.
  - exact Hall.
Qed.

Lemma redeemable_list_stays_empty_witness :
  exists p t,
    visit Sample.host Sample.willing (Some "ALICE") []
      [WalletChanged None; WalletChanged (Some "BOB")] = Some (p, t) /\
    map fst (calls (snd (fetchNFTs Sample.willing (Some "ALICE") []))) =
      (if connected (Some "ALICE") then [CAccountInformation] else []) /\
    nfts (state p) = [] /\
    selectedNFT (state p) = None /\
    render (wallet p) (state p) =
      (if connected (wallet p) then NoRedeemableNFTs else ConnectYourWallet) /\
    forallb is_wallet_changed
      [WalletChanged None; WalletChanged (Some "BOB")] = true.
Proof.
  eexists. eexists.
  assert (H : visit Sample.host Sample.willing (Some "ALICE") []
                [WalletChanged None; WalletChanged (Some "BOB")]
              = Some ({| wallet := Some "BOB"; state := initial |},
                      [AccountInformation "ALICE" (Ok (VObj []));
                       AccountInformation "BOB" (Ok (VObj []))]))
    by (vm_compute; reflexivity).
  split; [exact H |].
  exact (redeemable_list_stays_empty Sample.host Sample.willing
           (Some "ALICE") [] _ _ _ H).
Defined.

End RedeemClaims.

(* ------------------------------------------------------------------ *)
(** *** WalletContext.tsx and Navbar.tsx *)
(* ------------------------------------------------------------------ *)

Section WalletFacts.
Import JS Browser Trace Wallet.

(** Neither the default value of the context nor any value the provider
    passes down has a [setWalletAddress] member. *)
Lemma context_members (a : option string) :
  map fst (provided_context a) =
    ["walletAddress"; "peraWallet"; "connectWallet"; "disconnectWallet"] /\
  map fst default_context =
    ["walletAddress"; "peraWallet"; "connectWallet"; "disconnectWallet"] /\
  setWalletAddress (provided_context a) = None /\
  setWalletAddress default_context = None.
Proof. repeat split. Qed.

(** The provider's own [connectWallet] does update the address. *)
Lemma provider_connectWallet_updates (world : World) (h : list Event)
  (first : string) (others : list string) :
  connect world h = Ok (first :: others) ->
  provider_connectWallet world h =
  (Ok tt, [PeraConnect (Ok (first :: others)); SetWalletAddress (Some first)]).
Proof.
  intros E. unfold provider_connectWallet, try_catch, bind, await_connect.
  rewrite E. reflexivity.
Qed.

(** C10: the context value holds [walletAddress], [peraWallet],
    [connectWallet] and [disconnectWallet] and nothing else, so what the
    navigation bar reads out of it under [setWalletAddress] is
    [undefined].  When the wallet connects with at least one account, the
    [try] block of the bar's [connectWallet] throws a TypeError at the
    call; the handler logs it, and the address is not updated: the trace
    is the connection followed by the logged error. *)
Theorem navbar_connect_throws
  (world : World) (a : option string) (h : list Event)
  (first : string) (others : list string) :
  connect world h = Ok (first :: others) ->
  map fst (provided_context a) =
    ["walletAddress"; "peraWallet"; "connectWallet"; "disconnectWallet"] /\
  setWalletAddress (provided_context a) = None /\
  fst (connectWallet_try world (provided_context a) h) =
    Throw (not_a_function "setWalletAddress") /\
  connectWallet world (provided_context a) h =
    (Ok tt, [PeraConnect (Ok (first :: others));
             ConsoleError "Wallet connection failed:"
               (not_a_function "setWalletAddress")]).
Proof.
  intros E. split; [reflexivity |]. split; [reflexivity |].
  unfold connectWallet, connectWallet_try, try_catch, bind, await_connect.
  rewrite E. split; reflexivity.
Qed.

Lemma navbar_connect_throws_witness :
  connect Sample.willing [] = Ok ["ALICE"] /\
  map fst (provided_context None) =
    ["walletAddress"; "peraWallet"; "connectWallet"; "disconnectWallet"] /\
  setWalletAddress (provided_context None) = None /\
  fst (connectWallet_try Sample.willing (provided_context None) []) =
    Throw (not_a_function "setWalletAddress") /\
  connectWallet Sample.willing (provided_context None) [] =
    (Ok tt, [PeraConnect (Ok ["ALICE"]);
             ConsoleError "Wallet connection failed:"
               (not_a_function "setWalletAddress")]).
Proof.
  split; [reflexivity |].
  apply (navbar_connect_throws Sample.willing None [] "ALICE" []).
  reflexivity.
Defined.

End WalletFacts.

(* ------------------------------------------------------------------ *)
(** *** The redemption protocol *)
(* ------------------------------------------------------------------ *)

Section ProtocolFacts.
Import Protocol.

Lemma fallbackAmount_max (bal minres fee : Z) :
  fallbackAmount bal minres fee = Z.max 0 (bal - minres - fee).
Proof.
  unfold fallbackAmount. destruct (Z.ltb_spec (bal - minres - fee) 0); lia.
Qed.

(** C3, as stated, fails in its last part: with 5 ALGO stored as the
    locked amount and an escrow that has since received 2 ALGO more
    (balance 7201000, reserve 200000, fee buffer 1000) both paths are
    available, the stored one pays 5000000 and the fallback would pay
    7000000. *)
Lemma paths_disagree_after_deposit :
  ~ paths_agree 5000000 7201000 200000 1000.
Proof. unfold paths_agree. vm_compute. discriminate. Qed.

(** C3, amended: the payout is the stored [locked_amount] when the
    metadata has one; otherwise it is balance minus minimum reserve minus
    fee buffer, or zero when that difference is negative, hence never
    negative.  The two paths agree exactly when the stored amount is that
    clamped difference: when the escrow holds the stored amount on top of
    the reserve and the fee buffer, or when nothing is stored as locked
    and the escrow holds no more than the reserve and the fee buffer. *)
Theorem computeAmount_paths (stored bal minres fee : Z) :
  computeAmount (Some stored) bal minres fee = stored /\
  computeAmount None bal minres fee = Z.max 0 (bal - minres - fee) /\
  0 <= computeAmount None bal minres fee /\
  (paths_agree stored bal minres fee <->
   (0 <= stored /\ bal = stored + minres + fee) \/
   (stored = 0 /\ bal <= minres + fee)).
Proof.
  unfold paths_agree. simpl. rewrite !fallbackAmount_max.
  repeat split; lia.
Qed.

(** C2: the mutating step of a redemption submits one group of exactly
    two transactions, the asset unit from the redeemer to the escrow and
    the payment from the escrow to the redeemer.  If the first leg is
    rejected, or the first leg is accepted and the second is rejected, the
    ledger is left as it was; only when both legs are accepted is the
    ledger that of both legs applied. *)
Theorem redemption_is_atomic
  (rejects : Txn -> bool) (l : Ledger)
  (redeemer escrow : address) (asset amount : Z) :
  redemption_group redeemer escrow asset amount =
    [AssetTransfer redeemer escrow asset 1; Payment escrow redeemer amount] /\
  match apply rejects l (AssetTransfer redeemer escrow asset 1) with
  | None => redeem rejects l redeemer escrow asset amount = (l, false)
  | Some l1 =>
      match apply rejects l1 (Payment escrow redeemer amount) with
      | None => redeem rejects l redeemer escrow asset amount = (l, false)
      | Some l2 => redeem rejects l redeemer escrow asset amount = (l2, true)
      end
  end.
Proof.
  split; [reflexivity |].
  unfold redeem, submit_group, redemption_group. simpl.
  destruct (apply rejects l (AssetTransfer redeemer escrow asset 1)) as [l1 |];
    [| reflexivity].
  destruct (apply rejects l1 (Payment escrow redeemer amount)); reflexivity.
Qed.

(** What a committed redemption does: the unit goes from the redeemer to
    the escrow and the amount from the escrow to the redeemer.  A
    redemption that is not committed leaves the ledger as it was. *)
Lemma redeem_committed
  (rejects : Txn -> bool) (l l' : Ledger)
  (redeemer escrow : address) (asset amount : Z) :
  redeemer <> escrow ->
  redeem rejects l redeemer escrow asset amount = (l', true) ->
  holding l' redeemer asset = holding l redeemer asset - 1 /\
  holding l' escrow asset = holding l escrow asset + 1 /\
  balance l' redeemer = balance l redeemer + amount /\
  balance l' escrow = balance l escrow - amount.
Proof.
  intros Hne.
  assert (Hre : String.eqb redeemer escrow = false)
    by (apply String.eqb_neq; exact Hne).
  assert (Her : String.eqb escrow redeemer = false)
    by (apply String.eqb_neq; congruence).
  unfold redeem, submit_group, redemption_group. simpl apply_all.
  destruct (apply rejects l (AssetTransfer redeemer escrow asset 1))
    as [l1 |] eqn:E1; [| discriminate].
  destruct (apply rejects l1 (Payment escrow redeemer amount))
    as [l2 |] eqn:E2; [| discriminate].
  intros H. inversion H. subst l'. clear H.
  unfold apply in E1, E2.
  destruct (rejects (AssetTransfer redeemer escrow asset 1)); [discriminate |].
  destruct ((0 <=? 1) && (1 <=? holding l redeemer asset)); [| discriminate].
  destruct (rejects (Payment escrow redeemer amount)); [discriminate |].
  destruct ((0 <=? amount) && (amount <=? balance l1 escrow)); [| discriminate].
  inversion E2. subst l2. clear E2. inversion E1. subst l1. clear E1.
  cbn [balance holding]. unfold set1, set2.
  rewrite !String.eqb_refl, !Z.eqb_refl, ?Hre, ?Her. cbn [andb].
  repeat split; reflexivity.
Qed.

Lemma redeem_rejected
  (rejects : Txn -> bool) (l l' : Ledger)
  (redeemer escrow : address) (asset amount : Z) :
  redeem rejects l redeemer escrow asset amount = (l', false) -> l' = l.
Proof.
  unfold redeem, submit_group.
  destruct (apply_all rejects l _); intros H; inversion H; reflexivity.
Qed.

End ProtocolFacts.

Section ProtocolExamples.
Import Protocol.

(** A mock ledger that rejects the second leg: the first leg alone would
    move the asset to the escrow, the group leaves everything in place. *)
Lemma second_leg_rejected :
  (exists l1,
     apply Sample.reject_payments Sample.ledger0
       (AssetTransfer "REDEEMER" "ESCROW" 7 1) = Some l1 /\
     holding l1 "REDEEMER" 7 = 0 /\ holding l1 "ESCROW" 7 = 1) /\
  redeem Sample.reject_payments Sample.ledger0 "REDEEMER" "ESCROW" 7 5000000
  = (Sample.ledger0, false).
Proof.
  split; [eexists; split; [reflexivity | split; reflexivity] | reflexivity].
Qed.

(** The same redemption on a ledger that rejects nothing. *)
Lemma both_legs_accepted :
  let result :=
    redeem Sample.reject_nothing Sample.ledger0 "REDEEMER" "ESCROW" 7 5000000 in
  snd result = true /\
  holding (fst result) "REDEEMER" 7 = 0 /\
  holding (fst result) "ESCROW" 7 = 1 /\
  balance (fst result) "REDEEMER" = 5000000 /\
  balance (fst result) "ESCROW" = 201000.
Proof. vm_compute. repeat split. Qed.

End ProtocolExamples.

(* ------------------------------------------------------------------ *)
(** *** Specifications of the pieces, and how they chain *)
(* ------------------------------------------------------------------ *)

Section HoldsRules.
Import JS Browser Observe.

Lemma holds_after_bind {A B : Type} (prefix : list Event) (m : M A)
  (k : A -> M B) (Qm : Outcome A -> list Event -> Prop)
  (P : Outcome B -> list Event -> Prop) :
  holds m Qm ->
  (forall a es, Qm (Ok a) es -> holds_after (prefix ++ es) (k a) P) ->
  (forall t es, Qm (Throw t) es -> P (Throw t) (prefix ++ es)%list) ->
  holds_after prefix (bind m k) P.
Proof.
  intros Hm Hk Ht h. specialize (Hm h).
  rewrite bind_events, bind_outcome.
  destruct (m h) as [[a | t] es]; simpl in *.
  - specialize (Hk a es Hm (h ++ es)%list). now rewrite <- app_assoc in Hk.
  - rewrite app_nil_r. now apply Ht.
Qed.

Lemma holds_after_last {A : Type} (prefix : list Event) (m : M A)
  (Qm P : Outcome A -> list Event -> Prop) :
  holds m Qm ->
  (forall r es, Qm r es -> P r (prefix ++ es)%list) ->
  holds_after prefix m P.
Proof. intros Hm HP h. apply HP, Hm. Qed.

Lemma holds_emit (e : Event) :
  holds (emit e) (fun r es => r = Ok tt /\ es = [e]).
Proof. intros h. split; reflexivity. Qed.

Lemma holds_lift {A : Type} (o : Outcome A) :
  holds (lift o) (fun r es => r = o /\ es = []).
Proof. intros h. split; reflexivity. Qed.

Lemma ends_with_rev (suffix t pre : list Event) :
  rev t = (rev suffix ++ pre)%list -> ends_with suffix t.
Proof.
  intros E. exists (rev pre).
  rewrite <- (rev_involutive t), E, rev_app_distr, rev_involutive.
  reflexivity.
Qed.


Variable host : Host.
Variable world : World.

(** A request block adds one event, the request with its answer; it
    returns a document only when the answer was [ok] and held it. *)
Lemma holds_post (url : string) (payload : value)
  (fallback : Response -> string) :
  holds (Mint.post host world url payload fallback)
    (fun r es =>
       exists reply,
         es = [Fetch url {| method := "POST";
                            headers := [("Content-Type", "application/json")];
                            body := JSON_stringify payload |} reply] /\
         forall v, r = Ok v ->
                   exists st,
                     reply = Ok {| ok := true; status := st; json := Ok v |}).
Proof.
  intros h. unfold Mint.post, bind, await_fetch, lift, throw.
  destruct (fetch world h url _) as [[o st j] | t]; simpl.
  - destruct o; simpl.
    + destruct j as [v | t]; simpl; eexists; (split; [reflexivity |]).
      * intros v' E. inversion E. subst. eexists. reflexivity.
      * discriminate.
    + destruct j as [errorData | t]; simpl.
      * destruct (get errorData "detail"); simpl; eexists;
          (split; [reflexivity | discriminate]).
      * eexists. split; [reflexivity | discriminate].
  - eexists. split; [reflexivity | discriminate].
Qed.

Lemma holds_signTransaction (groups : list (list SignerTransaction)) :
  holds (await_signTransaction world groups)
    (fun r es => es = [SignTransaction groups r]).
Proof. intros h. reflexivity. Qed.

Lemma holds_base64ToTxn (b64Txn : value) :
  holds (Mint.base64ToTxn host b64Txn)
    (fun r es =>
       match r with
       | Ok tx =>
           es = [] /\
           exists binaryString,
             atob host (Mint.toStr host b64Txn) = Ok binaryString /\
             decodeUnsignedTransaction host (Mint.charCodes binaryString)
             = Ok tx
       | Throw _ =>
           exists err, es = [ConsoleError "Error decoding transaction:" err]
       end).
Proof.
  intros h.
  unfold Mint.base64ToTxn, try_catch, bind, lift, throw, console_error, emit.
  destruct (atob host _) as [s | t] eqn:Ea; simpl.
  - destruct (decodeUnsignedTransaction host _) eqn:Ed; simpl.
    + split; [reflexivity |]. exists s. split; [reflexivity | exact Ed].
    + eexists; reflexivity.
  - eexists; reflexivity.
Qed.

Lemma holds_uint8ToBase64 (u8 : option bytes) :
  holds (Mint.uint8ToBase64 host u8)
    (fun r es =>
       es = [] /\
       forall b64, r = Ok b64 ->
                   exists u, u8 = Some u /\
                             b64 = btoa host (Mint.fromCharCodes u)).
Proof.
  intros h. destruct u8 as [u |]; simpl.
  - split; [reflexivity |]. intros b64 E. inversion E. eauto.
  - split; [reflexivity | discriminate].
Qed.

(** [handleSubmit] as a whole: the two early returns, and the [try] block
    between the two changes of [loading], followed by the [catch] block
    when it throws. *)
Lemma handleSubmit_run (P : list Event -> Prop) (s : Mint.State) :
  (Redeem.connected (Mint.walletAddress s) = false ->
   P [Alert "Connect wallet first!"]) ->
  (passes_guard s = false ->
   P [Alert "Please fill all fields with valid values!"]) ->
  (forall w,
     Mint.walletAddress s = Some w ->
     passes_guard s = true ->
     holds_after [SetLoading true; SetStatus "Preparing mint..."]
       (Mint.mint_steps host world w s)
       (fun r t => P (t ++ match r with
                           | Ok _ => [SetLoading false]
                           | Throw err => failure_ending err
                           end)%list)) ->
  forall h, P (snd (Mint.handleSubmit host world s h)).
Proof.
  intros Hnone Hbad Hrun h. unfold Mint.handleSubmit.
  unfold passes_guard, Redeem.connected in *.
  destruct (Mint.walletAddress s) as [w |]; [| now apply Hnone].
  destruct (str_truthy w); cbn [negb andb] in *; [| now apply Hnone].
  destruct (str_truthy (Mint.assetName s)); cbn [negb andb orb] in *;
    [| now apply Hbad].
  destruct (str_truthy (Mint.assetUnit s)); cbn [negb andb orb] in *;
    [| now apply Hbad].
  destruct (leb (Mint.algoAmount s) zero); cbn [negb andb orb] in *;
    [now apply Hbad |].
  specialize (Hrun w eq_refl eq_refl).
  rewrite bind_events. cbn [emit fst snd app].
  rewrite bind_events. cbn [emit fst snd app].
  rewrite finally_events, try_catch_events. cbn [emit snd].
  specialize (Hrun (h ++ [SetLoading true; SetStatus "Preparing mint..."])%list).
  cbn beta in Hrun.
  replace ((h ++ [SetLoading true]) ++ [SetStatus "Preparing mint..."])%list
    with (h ++ [SetLoading true; SetStatus "Preparing mint..."])%list
    by (rewrite <- app_assoc; reflexivity).
  destruct (fst (Mint.mint_steps host world w s _)) as [u | err].
  - rewrite app_nil_r. exact Hrun.
  - unfold failure_ending in Hrun.
    rewrite <- app_assoc. cbn [app] in *. exact Hrun.
Qed.

End HoldsRules.

Ltac use_spec :=
  first [ apply holds_emit | apply holds_lift | apply holds_post
        | apply holds_signTransaction | apply holds_base64ToTxn
        | apply holds_uint8ToBase64 ].

Ltac digest :=
  repeat match goal with
         | H : _ /\ _ |- _ => destruct H
         | H : exists _, _ |- _ => destruct H
         | H : JS.Throw _ = JS.Ok _ |- _ => discriminate H
         | H : forall v, JS.Ok ?a = JS.Ok v -> _ |- _ =>
             specialize (H a eq_refl)
         | H : forall v, JS.Throw _ = JS.Ok v -> _ |- _ => clear H
         | H : JS.Ok _ = JS.Ok tt |- _ => clear H
         | H : ?x = _ |- _ => is_var x; subst x
         end.

Ltac step :=
  eapply holds_after_bind;
  [ use_spec
  | let a := fresh "v" in let es := fresh "es" in let H := fresh "H" in
    intros a es H; cbn beta iota in H; digest; cbn [app]
  | let t := fresh "t" in let es := fresh "es" in let H := fresh "H" in
    intros t es H; cbn beta iota in H; digest; cbn [app] ].

Ltac last_step :=
  eapply holds_after_last;
  [ use_spec
  | let r := fresh "r" in let es := fresh "es" in let H := fresh "H" in
    intros r es H; cbn beta iota in H; digest; cbn [app] ].

(** Runs the [try] block of [handleSubmit] to each of its ends. *)
Ltac run_mint_steps :=
  unfold Mint.mint_steps, Browser.alert, Browser.console_log;
  repeat step; try last_step.

(* ------------------------------------------------------------------ *)
(** *** Mint.tsx: what a run carries, asks for and ends with *)
(* ------------------------------------------------------------------ *)

Section MintRuns.
Import JS Browser Trace Observe Mint.

Ltac same_reads :=
  repeat match goal with
         | H1 : Ok ?a = ?g, H2 : Ok ?b = ?g |- _ =>
             lazymatch a with
             | b => fail
             | _ => is_var b; assert (b = a) by congruence; subst b
             end
         end.

Ltac first_signed :=
  repeat match goal with
         | H : nth_error ?l 0 = Some _ |- _ =>
             is_var l; destruct l; [discriminate H |];
             cbn [nth_error] in H; injection H as ->
         end.

(** X1: when [handleSubmit] requests the transfer, the request carries
    the escrow address the backend gave in its answer to the mint
    request, the asset id it gave in its answer to the creation request,
    and the connected wallet as the receiver; the creation request was
    made for that escrow address and the opt-in request for that asset
    id. *)
Theorem transfer_request_carries
  (host : Host) (world : World) (s : State) (h : list Event) (b : value) :
  request_body url_transfer_nft (snd (handleSubmit host world s h)) = Some b ->
  exists w,
    walletAddress s = Some w /\
    transfer_carries w (snd (handleSubmit host world s h)) b.
Proof.
  revert b.
  apply (handleSubmit_run host world
           (fun t => forall b, request_body url_transfer_nft t = Some b ->
                               exists w, walletAddress s = Some w /\
                                         transfer_carries w t b)).
  - intros _ b Hb. discriminate Hb.
  - intros _ b Hb. discriminate Hb.
  - intros w Hw _. run_mint_steps.
    all: intros b Hb; cbn in Hb;
      first
        [ discriminate Hb
        | injection Hb as <-; same_reads;
          exists w; split; [exact Hw |];
          do 4 eexists;
          split; [cbn; reflexivity |];
          split; [cbn; reflexivity |];
          split; [symmetry; eassumption |];
          split; [symmetry; eassumption |];
          split; [cbn; reflexivity |];
          split; [cbn; reflexivity |];
          reflexivity ].
Qed.

Lemma transfer_request_carries_witness :
  exists b w,
    request_body url_transfer_nft
      (snd (handleSubmit Sample.host Sample.willing
              (Sample.form Sample.five) [])) = Some b /\
    walletAddress (Sample.form Sample.five) = Some w /\
    transfer_carries w
      (snd (handleSubmit Sample.host Sample.willing
              (Sample.form Sample.five) [])) b.
Proof.
  eexists.
  assert (H : request_body url_transfer_nft
                (snd (handleSubmit Sample.host Sample.willing
                        (Sample.form Sample.five) []))
              = Some (VObj [("escrow_address", VStr "ESCROW");
                            ("asset_id", VNum Sample.n200);
                            ("receiver_address", VStr "ALICE")]))
    by (vm_compute; reflexivity).
  destruct (transfer_request_carries Sample.host Sample.willing
              (Sample.form Sample.five) [] _ H) as [w [Hw Hc]].
  exists w. split; [exact H |]. split; [exact Hw | exact Hc].
Defined.

(** X2: when [handleSubmit] submits the funding transaction, what it
    submits is the first thing the wallet signed when it was asked, in
    the first signing call, to sign as the connected wallet the
    transaction that the backend's answer to the mint request held under
    [funding_txn]. *)
Theorem funding_submission_carries
  (host : Host) (world : World) (s : State) (h : list Event) (b : value) :
  request_body url_submit_funding (snd (handleSubmit host world s h)) = Some b ->
  exists w,
    walletAddress s = Some w /\
    submission_carries host w url_mint "funding_txn" 0
      (snd (handleSubmit host world s h)) b.
Proof.
  revert b.
  apply (handleSubmit_run host world
           (fun t => forall b, request_body url_submit_funding t = Some b ->
                               exists w, walletAddress s = Some w /\
                                         submission_carries host w url_mint
                                           "funding_txn" 0 t b)).
  - intros _ b Hb. discriminate Hb.
  - intros _ b Hb. discriminate Hb.
  - intros w Hw _. run_mint_steps.
    all: intros b Hb; cbn in Hb;
      first
        [ discriminate Hb
        | injection Hb as <-; first_signed;
          exists w; split; [exact Hw |];
          do 6 eexists;
          split; [cbn; reflexivity |];
          split; [symmetry; eassumption |];
          split; [eassumption |];
          split; [eassumption |];
          split; [cbn; reflexivity |];
          reflexivity ].
Qed.


Lemma funding_submission_carries_witness :
  exists b w,
    request_body url_submit_funding
      (snd (handleSubmit Sample.host Sample.willing
              (Sample.form Sample.five) [])) = Some b /\
    walletAddress (Sample.form Sample.five) = Some w /\
    submission_carries Sample.host w url_mint "funding_txn" 0
      (snd (handleSubmit Sample.host Sample.willing
              (Sample.form Sample.five) [])) b.
Proof.
  eexists.
  assert (H : request_body url_submit_funding
                (snd (handleSubmit Sample.host Sample.willing
                        (Sample.form Sample.five) []))
              = Some (VObj [("signed_txn",
                             VStr (fromCharCodes [Byte.x01]))]))
    by (vm_compute; reflexivity).
  destruct (funding_submission_carries Sample.host Sample.willing
              (Sample.form Sample.five) [] _ H) as [w [Hw Hc]].
  exists w. split; [exact H |]. split; [exact Hw | exact Hc].
Defined.

(** X3: the same for the opt-in: what [handleSubmit] submits as the
    opt-in is the first thing the wallet signed when it was asked, in the
    second signing call, to sign as the connected wallet the transaction
    that the backend's answer to the opt-in request held under
    [optin_txn]. *)
Theorem optin_submission_carries
  (host : Host) (world : World) (s : State) (h : list Event) (b : value) :
  request_body url_submit_optin (snd (handleSubmit host world s h)) = Some b ->
  exists w,
    walletAddress s = Some w /\
    submission_carries host w url_optin "optin_txn" 1
      (snd (handleSubmit host world s h)) b.
Proof.
  revert b.
  apply (handleSubmit_run host world
           (fun t => forall b, request_body url_submit_optin t = Some b ->
                               exists w, walletAddress s = Some w /\
                                         submission_carries host w url_optin
                                           "optin_txn" 1 t b)).
  - intros _ b Hb. discriminate Hb.
  - intros _ b Hb. discriminate Hb.
  - intros w Hw _. run_mint_steps.
    all: intros b Hb; cbn in Hb;
      first
        [ discriminate Hb
        | injection Hb as <-; first_signed;
          exists w; split; [exact Hw |];
          do 6 eexists;
          split; [cbn; reflexivity |];
          split; [symmetry; eassumption |];
          split; [eassumption |];
          split; [eassumption |];
          split; [cbn; reflexivity |];
          reflexivity ].
Qed.

Lemma optin_submission_carries_witness :
  exists b w,
    request_body url_submit_optin
      (snd (handleSubmit Sample.host Sample.willing
              (Sample.form Sample.five) [])) = Some b /\
    walletAddress (Sample.form Sample.five) = Some w /\
    submission_carries Sample.host w url_optin "optin_txn" 1
      (snd (handleSubmit Sample.host Sample.willing
              (Sample.form Sample.five) [])) b.
Proof.
  eexists.
  assert (H : request_body url_submit_optin
                (snd (handleSubmit Sample.host Sample.willing
                        (Sample.form Sample.five) []))
              = Some (VObj [("signed_txn",
                             VStr (fromCharCodes [Byte.x01]))]))
    by (vm_compute; reflexivity).
  destruct (optin_submission_carries Sample.host Sample.willing
              (Sample.form Sample.five) [] _ H) as [w [Hw Hc]].
  exists w. split; [exact H |]. split; [exact Hw | exact Hc].
Defined.

(** X4: every request [handleSubmit] makes is a [POST] with the header
    [Content-Type: application/json], and the requests of a run are the
    first ones of the six requests of the flow: no other address is ever
    contacted. *)
Theorem requests_are_json_posts
  (host : Host) (world : World) (s : State) (h : list Event) :
  exists n, requests (snd (handleSubmit host world s h))
            = firstn n mint_requests.
Proof.
  apply (handleSubmit_run host world
           (fun t => exists n, requests t = firstn n mint_requests)).
  - intros _. exists 0%nat. reflexivity.
  - intros _. exists 0%nat. reflexivity.
  - intros w _ _. run_mint_steps.
    all: cbn [requests app failure_ending method headers];
      first [ exists 0%nat; reflexivity | exists 1%nat; reflexivity
            | exists 2%nat; reflexivity | exists 3%nat; reflexivity
            | exists 4%nat; reflexivity | exists 5%nat; reflexivity
            | exists 6%nat; reflexivity ].
Qed.

(** X5: the wallet is asked to sign at most twice in a run, each time a
    single transaction, and each time as the connected wallet and nobody
    else. *)
Theorem signs_only_as_connected_wallet
  (host : Host) (world : World) (s : State) (h : list Event) :
  (List.length (sign_calls (snd (handleSubmit host world s h))) <= 2)%nat /\
  match walletAddress s with
  | Some w =>
      Forall (signs_one_as w) (sign_calls (snd (handleSubmit host world s h)))
  | None => sign_calls (snd (handleSubmit host world s h)) = []
  end.
Proof.
  apply (handleSubmit_run host world
           (fun t => (List.length (sign_calls t) <= 2)%nat /\
                     match walletAddress s with
                     | Some w => Forall (signs_one_as w) (sign_calls t)
                     | None => sign_calls t = []
                     end)).
  - intros _. split; [simpl; lia |]. destruct (walletAddress s); constructor.
  - intros _. split; [simpl; lia |]. destruct (walletAddress s); constructor.
  - intros w Hw _. rewrite Hw. run_mint_steps.
    all: cbn [sign_calls app failure_ending List.length];
      (split; [lia |]);
      repeat (constructor; [eexists; reflexivity |]); constructor.
Qed.

(** X6: every run of [handleSubmit] ends in one of four ways: with the
    alert that asks for a wallet; with the alert that asks for valid
    values; with the success alert, the reset of the three form fields
    and of the status, and [loading] back to false; or with the error
    logged, shown in an alert and in the status, and [loading] back to
    false.  No failure passes in silence. *)
Theorem handleSubmit_endings
  (host : Host) (world : World) (s : State) (h : list Event) :
  let t := snd (handleSubmit host world s h) in
  t = [Alert "Connect wallet first!"] \/
  t = [Alert "Please fill all fields with valid values!"] \/
  (exists assetId txid, ends_with (success_ending host assetId txid) t) \/
  (exists err, ends_with (failure_ending err) t).
Proof.
  apply (handleSubmit_run host world
           (fun t =>
              t = [Alert "Connect wallet first!"] \/
              t = [Alert "Please fill all fields with valid values!"] \/
              (exists assetId txid,
                 ends_with (success_ending host assetId txid) t) \/
              (exists err, ends_with (failure_ending err) t))).
  - intros _. left. reflexivity.
  - intros _. right. left. reflexivity.
  - intros w _ _. run_mint_steps.
    all: right; right;
      first
        [ right; eexists; eapply ends_with_rev;
          cbn [rev app failure_ending]; reflexivity
        | left; do 2 eexists; eapply ends_with_rev;
          cbn [rev app success_ending]; reflexivity ].
Qed.

End MintRuns.

Section MintHandler.
Import JS Browser Trace Observe Mint.

Lemma try_catch_outcome {A : Type} (m : M A) (handler : Thrown -> M A)
  (h : list Event) :
  fst (try_catch m handler h) =
  match fst (m h) with
  | Ok a => Ok a
  | Throw t => fst (handler t (h ++ snd (m h))%list)
  end.
Proof.
  unfold try_catch. destruct (m h) as [[a | t] es]; simpl; [reflexivity |].
  destruct (handler t (h ++ es)%list). reflexivity.
Qed.

Lemma finally_outcome {A : Type} (m : M A) (fin : M unit) (h : list Event) :
  fst (finally m fin h) =
  match fst (fin (h ++ snd (m h))%list) with
  | Ok _ => fst (m h)
  | Throw t => Throw t
  end.
Proof.
  unfold finally. destruct (m h) as [r es]; simpl.
  destruct (fin (h ++ es)%list) as [[u | t] es']; reflexivity.
Qed.

(** X7: [handleSubmit] never rejects: whatever the backend, the wallet
    and the libraries answer or throw, the handler returns normally (every
    error ends in its [catch] block), and it leaves [loading] false when
    it ran the flow, untouched when it returned early. *)
Theorem handleSubmit_never_rejects
  (host : Host) (world : World) (s : State) (h : list Event) (b : bool) :
  fst (handleSubmit host world s h) = Ok tt /\
  loading_after b (snd (handleSubmit host world s h)) =
    (if passes_guard s then false else b).
Proof.
  split.
  - unfold handleSubmit.
    destruct (walletAddress s) as [w |]; [| reflexivity].
    destruct (negb (str_truthy w)); [reflexivity |].
    destruct (_ || _); [reflexivity |].
    rewrite bind_outcome. cbn [emit fst snd].
    rewrite bind_outcome. cbn [emit fst snd].
    rewrite finally_outcome. cbn [emit fst].
    rewrite try_catch_outcome.
    destruct (fst (mint_steps host world w s _)) as [[] | err]; reflexivity.
  - apply (handleSubmit_run host world
             (fun t => loading_after b t = if passes_guard s then false else b)).
    + intros Hc. unfold passes_guard. rewrite Hc. reflexivity.
    + intros ->. reflexivity.
    + intros w _ ->. run_mint_steps.
      all: reflexivity.
Qed.



(** X9: the backend is contacted exactly when the guard lets the form
    through: a wallet is connected, the name and the unit are not empty
    and the amount is not [<= 0].  Otherwise the run has no call to the
    outside world at all. *)
Theorem backend_contacted_iff_guard
  (host : Host) (world : World) (s : State) (h : list Event) :
  match first_request (snd (handleSubmit host world s h)) with
  | Some (url, _) => passes_guard s = true /\ url = url_mint
  | None => passes_guard s = false /\
            calls (snd (handleSubmit host world s h)) = []
  end.
Proof.
  unfold passes_guard.
  destruct (Redeem.connected (walletAddress s)) eqn:Hc.
  - destruct (negb (str_truthy (assetName s)) || negb (str_truthy (assetUnit s))
              || leb (algoAmount s) zero) eqn:Hv.
    + rewrite (handleSubmit_invalid host world s h Hv Hc). simpl.
      split; [| reflexivity].
      apply orb_true_iff in Hv. destruct Hv as [Hv | Hv].
      * apply orb_true_iff in Hv. destruct Hv as [Hv | Hv];
          apply negb_true_iff in Hv; rewrite Hv;
          [reflexivity | now rewrite andb_false_r].
      * rewrite Hv. now rewrite andb_false_r.
    + unfold Redeem.connected in Hc.
      destruct (walletAddress s) as [w |] eqn:Hw; [| discriminate].
      rewrite (handleSubmit_first_request host world s w h Hw Hc Hv).
      apply orb_false_elim in Hv. destruct Hv as [Hv Ha].
      apply orb_false_elim in Hv. destruct Hv as [Hn Hu].
      apply negb_false_iff in Hn, Hu. rewrite Hn, Hu, Ha.
      split; reflexivity.
  - rewrite (handleSubmit_without_wallet host world s h Hc).
    split; reflexivity.
Qed.

End MintHandler.

(* ------------------------------------------------------------------ *)
(** *** Mint.tsx: the amount and the two codecs *)
(* ------------------------------------------------------------------ *)

Section MintAmount.
Import JS Browser Trace Observe Mint.

(** A rounded product carries the sign it was given, unless it is NaN. *)
Lemma binary_round_aux_sign (sx : bool) (mx ex : Z) (lx : location) :
  match binary_round_aux prec emax sx mx ex lx with
  | S754_zero s | S754_infinity s | S754_finite s _ _ => s = sx
  | S754_nan => True
  end.
Proof.
  unfold binary_round_aux.
  destruct (shr_fexp prec emax mx ex lx) as [mrs' e'].
  destruct (shr_fexp prec emax _ e' loc_Exact) as [mrs'' e''].
  destruct (shr_m mrs'') as [| m | m]; try exact I; [reflexivity |].
  destruct (e'' <=? emax - prec); reflexivity.
Qed.

Lemma positive_floor_natural (m : positive) (e : Z) :
  exists z, number_to_Z (Math_floor (S754_finite false m e)) = Some z /\ 0 <= z.
Proof.
  rewrite Math_floor_finite. eexists. split; [reflexivity |].
  unfold signed. destruct (0 <=? e) eqn:He.
  - apply Z.leb_le in He. apply Z.mul_nonneg_nonneg; [lia |].
    now apply Z.pow_nonneg.
  - apply Z.div_pos; [lia |]. apply Z.pow_pos_nonneg; lia.
Qed.

(** The amount that passes the guard, times a million, floored. *)
Lemma guarded_amount_floor (a : number) :
  leb a zero = false ->
  isFinite (mul a million) = true ->
  exists n z,
    Math_floor (mul a million) = n /\ isFinite n = true /\
    number_to_Z n = Some z /\ 0 <= z.
Proof.
  intros Hle Hfin.
  destruct a as [s | s | | s m e]; try discriminate.
  destruct s; [discriminate |].
  unfold mul, million in *. cbn [SFmul xorb] in *.
  pose proof (binary_round_aux_sign false
                (Z.pos (m * 8589934592000000)) (e + -33) loc_Exact) as Hs.
  destruct (binary_round_aux prec emax false _ _ loc_Exact)
    as [s' | s' | | s' m' e']; try discriminate; subst s'.
  - exists (S754_zero false), 0. repeat split; reflexivity || lia.
  - destruct (positive_floor_natural m' e') as [z [Hz Hpos]].
    exists (Math_floor (S754_finite false m' e')), z.
    repeat split; try assumption.
    destruct (Math_floor (S754_finite false m' e')); try reflexivity;
      discriminate.
Qed.

(** X10: the [locked_amount] of the mint request is never negative and
    never fractional: for every form that passes the guard, the document
    posted to [/mint] carries either [null] (when [algoAmount * 1_000_000]
    is not finite) or a whole number of microAlgos that is at least 0. *)
Theorem posted_locked_amount_null_or_natural
  (host : Host) (world : World) (s : State) (h : list Event) :
  passes_guard s = true ->
  exists w locked,
    first_request (snd (handleSubmit host world s h)) =
      Some (url_mint,
            VObj [("creator_address", VStr w);
                  ("asset_name", VStr (assetName s));
                  ("asset_unit", VStr (assetUnit s));
                  ("locked_amount", locked)]) /\
    (locked = VNull \/
     exists n z, locked = VNum n /\ number_to_Z n = Some z /\ 0 <= z).
Proof.
  unfold passes_guard, Redeem.connected. intros Hg.
  destruct (walletAddress s) as [w |] eqn:Hw; [| discriminate].
  apply andb_prop in Hg. destruct Hg as [Hg Ha].
  apply andb_prop in Hg. destruct Hg as [Hg Hu].
  apply andb_prop in Hg. destruct Hg as [Hc Hn].
  apply negb_true_iff in Ha.
  assert (Hv : negb (str_truthy (assetName s)) || negb (str_truthy (assetUnit s))
               || leb (algoAmount s) zero = false)
    by (rewrite Hn, Hu, Ha; reflexivity).
  rewrite (handleSubmit_first_request host world s w h Hw Hc Hv).
  unfold mint_payload. cbn [JSON_stringify flat_map app].
  destruct (isFinite (mul (algoAmount s) million)) eqn:Hfin.
  - destruct (guarded_amount_floor _ Ha Hfin) as [n [z [En [Hn' [Hz Hpos]]]]].
    rewrite En, Hn'.
    destruct n as [sg | sg | | sg m e] eqn:En'; try discriminate.
    + exists w, (VNum zero). split; [reflexivity |]. right.
      exists zero, 0. repeat split. lia.
    + exists w, (VNum (S754_finite sg m e)). split; [reflexivity |]. right.
      exists (S754_finite sg m e), z. repeat split; assumption.
  - rewrite (Math_floor_not_finite _ Hfin), Hfin.
    exists w, VNull. split; [reflexivity | left; reflexivity].
Qed.

Lemma posted_locked_amount_null_or_natural_witness :
  passes_guard (Sample.form Sample.five) = true /\
  exists w locked,
    first_request (snd (handleSubmit Sample.host Sample.willing
                          (Sample.form Sample.five) [])) =
      Some (url_mint,
            VObj [("creator_address", VStr w);
                  ("asset_name", VStr (assetName (Sample.form Sample.five)));
                  ("asset_unit", VStr (assetUnit (Sample.form Sample.five)));
                  ("locked_amount", locked)]) /\
    (locked = VNull \/
     exists n z, locked = VNum n /\ number_to_Z n = Some z /\ 0 <= z).
Proof.
  split; [reflexivity |].
  apply (posted_locked_amount_null_or_natural Sample.host Sample.willing
           (Sample.form Sample.five) []).
  reflexivity.
Defined.

End MintAmount.

Section MintCodecs.
Import JS Browser Trace Observe Mint.

Lemma fromCharCodes_charCodes (binaryString : string) :
  fromCharCodes (charCodes binaryString) = binaryString.
Proof.
  induction binaryString as [| c rest IH]; simpl; [reflexivity |].
  now rewrite ascii_of_byte_of_ascii, IH.
Qed.

Lemma charCodes_fromCharCodes (u8 : bytes) :
  charCodes (fromCharCodes u8) = u8.
Proof.
  induction u8 as [| b rest IH]; simpl; [reflexivity |].
  now rewrite byte_of_ascii_of_byte, IH.
Qed.

(** X11: the two codecs of Mint.tsx undo each other.  The byte loop of
    [uint8ToBase64] and the byte loop of [base64ToTxn] are inverse in both
    directions; and on a platform whose [atob] reads back what its [btoa]
    wrote, [base64ToTxn] applied to [uint8ToBase64 u8] hands exactly the
    bytes [u8] to the transaction decoder, logs nothing, and returns what
    the decoder returns. *)
Theorem base64_round_trip
  (host : Host) (u8 : bytes) (h h' : list Event) :
  (forall binary, atob host (btoa host binary) = Ok binary) ->
  (forall binaryString, fromCharCodes (charCodes binaryString) = binaryString) /\
  charCodes (fromCharCodes u8) = u8 /\
  exists b64,
    uint8ToBase64 host (Some u8) h = (Ok b64, []) /\
    match decodeUnsignedTransaction host u8 with
    | Ok tx => base64ToTxn host (VStr b64) h' = (Ok tx, [])
    | Throw err =>
        base64ToTxn host (VStr b64) h' =
        (Throw (ErrorObj "Error"
                  ("Failed to decode transaction: "
                   ++ message_or err "Unknown error")),
         [ConsoleError "Error decoding transaction:" err])
    end.
Proof.
  intros Hinv.
  split; [exact fromCharCodes_charCodes |].
  split; [apply charCodes_fromCharCodes |].
  exists (btoa host (fromCharCodes u8)). split; [reflexivity |].
  unfold base64ToTxn, try_catch, bind, lift, throw, console_error, emit, toStr.
  cbn [ToString]. rewrite Hinv. cbn [fst snd].
  rewrite charCodes_fromCharCodes.
  destruct (decodeUnsignedTransaction host u8); reflexivity.
Qed.

Lemma base64_round_trip_witness :
  (forall binary, atob Sample.host (btoa Sample.host binary) = Ok binary) /\
  (forall binaryString, fromCharCodes (charCodes binaryString) = binaryString) /\
  charCodes (fromCharCodes [Byte.x01; Byte.xff]) = [Byte.x01; Byte.xff] /\
  exists b64,
    uint8ToBase64 Sample.host (Some [Byte.x01; Byte.xff]) [] = (Ok b64, []) /\
    match decodeUnsignedTransaction Sample.host [Byte.x01; Byte.xff] with
    | Ok tx => base64ToTxn Sample.host (VStr b64) [] = (Ok tx, [])
    | Throw err =>
        base64ToTxn Sample.host (VStr b64) [] =
        (Throw (ErrorObj "Error"
                  ("Failed to decode transaction: "
                   ++ message_or err "Unknown error")),
         [ConsoleError "Error decoding transaction:" err])
    end.
Proof.
  assert (H : forall binary,
            atob Sample.host (btoa Sample.host binary) = Ok binary)
    by (intros binary; reflexivity).
  split; [exact H |].
  exact (base64_round_trip Sample.host [Byte.x01; Byte.xff] [] [] H).
Defined.

(** X12: [base64ToTxn] fails in one way only.  When [atob] or the
    transaction decoder throws, the error is logged once and an [Error]
    is thrown whose message is "Failed to decode transaction: " followed
    by the message of the original error ("Unknown error" when what was
    thrown is not an [Error]); when both succeed nothing is logged and the
    decoded transaction is returned. *)
Theorem base64ToTxn_outcomes
  (host : Host) (b64Txn : value) (h : list Event) :
  match base64ToTxn host b64Txn h with
  | (Ok tx, es) =>
      es = [] /\
      exists binaryString,
        atob host (toStr host b64Txn) = Ok binaryString /\
        decodeUnsignedTransaction host (charCodes binaryString) = Ok tx
  | (Throw thrown, es) =>
      exists err,
        es = [ConsoleError "Error decoding transaction:" err] /\
        thrown = ErrorObj "Error" ("Failed to decode transaction: "
                                   ++ message_or err "Unknown error") /\
        (atob host (toStr host b64Txn) = Throw err \/
         exists binaryString,
           atob host (toStr host b64Txn) = Ok binaryString /\
           decodeUnsignedTransaction host (charCodes binaryString) = Throw err)
  end.
Proof.
  unfold base64ToTxn, try_catch, bind, lift, throw, console_error, emit.
  destruct (atob host (toStr host b64Txn)) as [s | t] eqn:Ea; cbn.
  - destruct (decodeUnsignedTransaction host (charCodes s)) eqn:Ed; cbn.
    + split; [reflexivity |]. exists s. split; [reflexivity | exact Ed].
    + eexists. split; [reflexivity |]. split; [reflexivity |].
      right. exists s. split; [reflexivity | exact Ed].
  - eexists. split; [reflexivity |]. split; [reflexivity |].
    left. reflexivity.
Qed.

End MintCodecs.

(* ------------------------------------------------------------------ *)
(** *** Redeem.tsx: what a visit asks of the node *)
(* ------------------------------------------------------------------ *)

Section RedeemVisits.
Import JS Browser Trace Observe Redeem.
Variable host : Host.
Variable world : World.

Lemma queried_app (a b : list Event) :
  queried (a ++ b) = (queried a ++ queried b)%list.
Proof.
  induction a as [| e a IH]; simpl; [reflexivity |].
  destruct e; simpl; now rewrite IH.
Qed.

Lemma logged_errors_app (a b : list Event) :
  logged_errors (a ++ b) = (logged_errors a ++ logged_errors b)%list.
Proof.
  induction a as [| e a IH]; simpl; [reflexivity |].
  destruct e; simpl; now rewrite IH.
Qed.

Lemma failed_reads_app (a b : list Event) :
  failed_reads (a ++ b) = (failed_reads a ++ failed_reads b)%list.
Proof.
  induction a as [| e a IH]; simpl; [reflexivity |].
  destruct e as [ | | | | | | | | | | | address [v | err] | | | ];
    simpl; now rewrite IH.
Qed.

(** One run of the effect: it returns normally; it asks for the account
    of a connected wallet and for nothing else; it logs exactly the read
    that failed, if it did. *)
Lemma fetchNFTs_run (a : option string) (h : list Event) :
  fst (fetchNFTs world a h) = Ok tt /\
  queried (snd (fetchNFTs world a h)) = connected_addresses [a] /\
  logged_errors (snd (fetchNFTs world a h)) =
    failed_reads (snd (fetchNFTs world a h)).
Proof.
  unfold fetchNFTs. destruct a as [w |]; [| repeat split].
  simpl connected_addresses.
  destruct (str_truthy w); cbn [negb]; [| repeat split].
  unfold try_catch, bind, await_accountInformation, ret, console_error, emit.
  destruct (accountInformation world h w); repeat split.
Qed.

Lemma last_cons {A : Type} (l : list A) (a d : A) :
  last (a :: l) d = last l a.
Proof.
  revert a d. induction l as [| b l IH]; intros a d; [reflexivity |].
  change (last (a :: b :: l) d) with (last (b :: l) d).
  now rewrite !IH.
Qed.

Lemma connected_addresses_app (a b : list (option string)) :
  connected_addresses (a ++ b) =
  (connected_addresses a ++ connected_addresses b)%list.
Proof.
  induction a as [| [w |] a IH]; simpl; [reflexivity | | exact IH].
  destruct (str_truthy w); simpl; now rewrite IH.
Qed.

(** The mount effect: one run of [fetchNFTs], or two in a development
    build. *)
Lemma mount_effect_run (development : bool) (a : option string)
  (h : list Event) :
  queried (snd (mount_effect world development a h)) =
    connected_addresses (if development then [a; a] else [a]) /\
  logged_errors (snd (mount_effect world development a h)) =
    failed_reads (snd (mount_effect world development a h)).
Proof.
  unfold mount_effect. destruct development; [| apply fetchNFTs_run].
  rewrite bind_events.
  destruct (fetchNFTs_run a h) as [Ho [Hq Hl]].
  destruct (fetchNFTs world a h) as [o t] eqn:E. simpl in Ho, Hq, Hl.
  subst o. cbn [fst snd].
  destruct (fetchNFTs_run a (h ++ t)) as [_ [Hq' Hl']].
  rewrite queried_app, logged_errors_app, failed_reads_app, Hq, Hq', Hl, Hl'.
  split; [| reflexivity].
  change [a; a] with ([a] ++ [a])%list.
  now rewrite connected_addresses_app.
Qed.

Lemma session_of_changes (changes : list (option string)) :
  forall (p : Page) (h : list Event),
  exists t,
    session host world p h (map WalletChanged changes) =
      Some ({| wallet := last changes (wallet p); state := state p |},
            (h ++ t)%list) /\
    queried t = connected_addresses (effect_runs (wallet p) changes) /\
    logged_errors t = failed_reads t.
Proof.
  induction changes as [| a changes IH]; intros p h.
  - exists []. rewrite app_nil_r. destruct p. repeat split.
  - cbn [map session act effect_runs].
    destruct (same_address (wallet p) a).
    + destruct (IH {| wallet := a; state := state p |}
                   (h ++ snd (ret tt h))%list) as [t [Hs [Hq' Hl']]].
      exists t. rewrite Hs. cbn [ret snd wallet state] in *.
      rewrite app_nil_r, last_cons. repeat split; assumption.
    + destruct (fetchNFTs_run a h) as [_ [Hq Hl]].
      destruct (IH {| wallet := a; state := state p |}
                   (h ++ snd (fetchNFTs world a h))%list)
        as [t [Hs [Hq' Hl']]].
      exists (snd (fetchNFTs world a h) ++ t)%list.
      rewrite Hs, app_assoc. split.
      * cbn [wallet state]. now rewrite last_cons.
      * rewrite queried_app, logged_errors_app, failed_reads_app,
          Hq, Hq', Hl, Hl'.
        split; [| reflexivity].
        cbn [wallet].
        change (a :: effect_runs a changes)
          with ([a] ++ effect_runs a changes)%list.
        now rewrite connected_addresses_app.
Qed.

(** X13: a visit of the redeem page under a context that provides the
    address [a] and then the addresses [changes] never fails and leaves
    the page with the last address provided.  The effect runs at the
    mount (twice in a development build, where [<StrictMode>] mounts the
    component a second time, once in a production build) and after it
    only for a provided address that differs from the one before it; the
    node is asked for the account of exactly the connected addresses among
    those runs, in that order; and every read that failed is logged,
    nothing else is. *)
Theorem visit_reads_each_connected_wallet
  (development : bool) (a : option string) (changes : list (option string)) :
  exists t,
    visit_in host world development a [] (map WalletChanged changes) =
      Some ({| wallet := last changes a; state := initial |}, t) /\
    queried t =
      connected_addresses
        ((if development then [a; a] else [a]) ++ effect_runs a changes) /\
    logged_errors t = failed_reads t.
Proof.
  unfold visit_in.
  destruct (mount_effect_run development a []) as [Hq Hl].
  destruct (session_of_changes changes (mount a)
              ([] ++ snd (mount_effect world development a []))%list)
    as [t [Hs [Hq' Hl']]].
  exists (snd (mount_effect world development a []) ++ t)%list.
  split; [exact Hs |].
  rewrite queried_app, logged_errors_app, failed_reads_app, Hq, Hq', Hl, Hl'.
  split; [| reflexivity].
  now rewrite connected_addresses_app.
Qed.

(** A production build mounts once: [visit] is that case. *)
Lemma visit_is_production (a : option string) (h : list Event)
  (actions : list Action) :
  visit host world a h actions = visit_in host world false a h actions.
Proof. reflexivity. Qed.

End RedeemVisits.

(* ------------------------------------------------------------------ *)
(** *** WalletContext.tsx and Navbar.tsx: who sets the address *)
(* ------------------------------------------------------------------ *)

Section WalletHandlers.
Import JS Browser Trace Observe Wallet.
Variable world : World.

(** The handlers of the bar under a context without [setWalletAddress]. *)
Lemma navbar_without_setter (context : Context) (x : option string)
  (h : list Event) :
  setWalletAddress context = None ->
  fst (connectWallet world context h) = Ok tt /\
  address_after x (snd (connectWallet world context h)) = x /\
  fst (disconnectWallet world context h) = Ok tt /\
  address_after x (snd (disconnectWallet world context h)) = x.
Proof.
  intros E.
  unfold connectWallet, connectWallet_try, disconnectWallet, try_catch, bind,
    await_connect, await_disconnect, connector_on, call, console_error, emit,
    ret, throw.
  rewrite E.
  destruct (connect world h) as [[| first others] | err]; cbn;
    destruct (disconnect world h) as [[] | err']; cbn;
    try destruct (connector world _); cbn; repeat split.
Qed.

(** X14: the navigation bar never changes the wallet address.  Under any
    value the provider passes down, and under the default value of the
    context, its [connectWallet] and its [disconnectWallet] return
    normally whatever the wallet does (it connects with or without
    accounts, it refuses, it fails to disconnect), and the address is
    after them what it was before. *)
Theorem navbar_never_sets_address
  (a x : option string) (h : list Event) :
  (fst (connectWallet world (provided_context a) h) = Ok tt /\
   address_after x (snd (connectWallet world (provided_context a) h)) = x /\
   fst (disconnectWallet world (provided_context a) h) = Ok tt /\
   address_after x (snd (disconnectWallet world (provided_context a) h)) = x) /\
  (fst (connectWallet world default_context h) = Ok tt /\
   address_after x (snd (connectWallet world default_context h)) = x /\
   fst (disconnectWallet world default_context h) = Ok tt /\
   address_after x (snd (disconnectWallet world default_context h)) = x).
Proof.
  split; apply navbar_without_setter; reflexivity.
Qed.

(** X15: the bar's [connectWallet] registers its "disconnect" listener
    only when the wallet connected with no account at all (and has a
    connector): when an account comes back, the call that throws comes
    first and the listener is never registered; when the connection
    fails, neither. *)
Theorem navbar_listener_only_without_accounts
  (a : option string) (h : list Event) :
  listeners (snd (connectWallet world (provided_context a) h)) =
  match connect world h with
  | Ok [] =>
      if connector world (h ++ [PeraConnect (Ok [])])%list
      then ["disconnect"] else []
  | Ok (_ :: _) | Throw _ => []
  end.
Proof.
  unfold connectWallet, connectWallet_try, try_catch, bind,
    await_connect, connector_on, call, console_error, emit, ret, throw.
  cbn [setWalletAddress provided_context lookup String.eqb Ascii.eqb Bool.eqb].
  destruct (connect world h) as [[| first others] | err]; cbn;
    [| reflexivity | reflexivity].
  rewrite app_nil_r.
  destruct (connector world _); reflexivity.
Qed.

(** X16: the provider's own handlers do set the address.  Its
    [connectWallet] returns normally in every case and sets the address
    to the first account when the wallet connected with at least one,
    leaving it as it was when the wallet connected with none or refused;
    its [disconnectWallet] returns normally and clears the address even
    when the wallet fails to disconnect. *)
Theorem provider_sets_address (x : option string) (h : list Event) :
  fst (provider_connectWallet world h) = Ok tt /\
  address_after x (snd (provider_connectWallet world h)) =
    match connect world h with
    | Ok (first :: _) => Some first
    | Ok [] | Throw _ => x
    end /\
  fst (provider_disconnectWallet world h) = Ok tt /\
  address_after x (snd (provider_disconnectWallet world h)) = None.
Proof.
  unfold provider_connectWallet, provider_disconnectWallet, try_catch, bind,
    await_connect, await_disconnect, console_error, emit, ret.
  destruct (connect world h) as [[| first others] | err];
    destruct (disconnect world h) as [[] | err']; repeat split.
Qed.

End WalletHandlers.

Section BarClicks.
Import JS Browser Trace Observe Wallet Bar.
Variable host : Host.
Variable world : World.

Lemma click_keeps_address (a : option string) (h : list Event) :
  address_after a (snd (click world a h)) = a.
Proof.
  unfold click.
  destruct (navbar_without_setter world (provided_context a) a h eq_refl)
    as [_ [Hc [_ Hd]]].
  destruct (button a); assumption.
Qed.

Lemma clicks_keep_address (n : nat) :
  forall (a : option string) (h : list Event), fst (clicks world n a h) = a.
Proof.
  induction n as [| n IH]; intros a h; [reflexivity |].
  cbn [clicks]. rewrite click_keeps_address. apply IH.
Qed.

(** X17: clicking the button of the navigation bar, any number of times,
    leaves the wallet address of the application as it was, so the bar
    goes on showing the same button.  In an application that starts
    without an address this means that, however often "Connect Wallet" is
    clicked and whatever the wallet answers, the mint page still answers a
    submission with "Connect wallet first!" and nothing else, and the
    redeem page still shows its connect prompt. *)
Theorem bar_clicks_leave_application_disconnected
  (n : nat) (a : option string) (h h' : list Event)
  (assetName assetUnit : string) (algoAmount : number)
  (nfts : Redeem.State) :
  let a' := fst (clicks world n a h) in
  a' = a /\
  button a' = button a /\
  (Redeem.connected a = false ->
   Mint.handleSubmit host world
     {| Mint.walletAddress := a';
        Mint.assetName := assetName;
        Mint.assetUnit := assetUnit;
        Mint.algoAmount := algoAmount |} h'
   = (Ok tt, [Alert "Connect wallet first!"]) /\
   Redeem.render a' nfts = Redeem.ConnectYourWallet).
Proof.
  cbn zeta. rewrite clicks_keep_address.
  split; [reflexivity |]. split; [reflexivity |].
  intros Hc. split.
  - apply handleSubmit_without_wallet. exact Hc.
  - unfold Redeem.render. rewrite Hc. reflexivity.
Qed.

End BarClicks.

Lemma bar_clicks_leave_application_disconnected_witness :
  Redeem.connected None = false /\
  fst (Bar.clicks Sample.willing 3 None []) = None /\
  Bar.button (fst (Bar.clicks Sample.willing 3 None [])) = Bar.button None /\
  Mint.handleSubmit Sample.host Sample.willing
    {| Mint.walletAddress := fst (Bar.clicks Sample.willing 3 None []);
       Mint.assetName := "Ticket";
       Mint.assetUnit := "TCK";
       Mint.algoAmount := Sample.five |} []
  = (JS.Ok tt, [Browser.Alert "Connect wallet first!"]) /\
  Redeem.render (fst (Bar.clicks Sample.willing 3 None [])) Redeem.initial
  = Redeem.ConnectYourWallet.
Proof.
  split; [reflexivity |].
  destruct (bar_clicks_leave_application_disconnected
              Sample.host Sample.willing 3 None [] []
              "Ticket" "TCK" Sample.five Redeem.initial) as [H1 [H2 H3]].
  split; [exact H1 |]. split; [exact H2 |].
  apply H3. reflexivity.
Defined.

(* ------------------------------------------------------------------ *)
(** *** Mint.tsx: a run stops only where an exchange failed *)
(* ------------------------------------------------------------------ *)

Section ProgressRules.
Import JS Browser Observe Progress.
Variable host : Host.
Variable world : World.

(** A request block, with what its outcome says of the answer. *)
Lemma holds_post_answered (url : string) (payload : value)
  (fallback : Response -> string) :
  holds (Mint.post host world url payload fallback)
    (fun r es =>
       exists reply,
         es = [Fetch url {| method := "POST";
                            headers := [("Content-Type", "application/json")];
                            body := JSON_stringify payload |} reply] /\
         match r with
         | Ok v =>
             exists st,
               reply = Ok {| ok := true; status := st; json := Ok v |}
         | Throw _ => answered reply = None
         end).
Proof.
  intros h. unfold Mint.post, bind, await_fetch, lift, throw.
  destruct (fetch world h url _) as [[o st j] | t]; simpl.
  - destruct o; simpl.
    + destruct j as [v | t]; simpl; eexists; (split; [reflexivity |]).
      * eexists. reflexivity.
      * reflexivity.
    + destruct j as [errorData | t]; simpl.
      * destruct (get errorData "detail"); simpl; eexists;
          (split; reflexivity).
      * eexists. split; reflexivity.
  - eexists. split; reflexivity.
Qed.

Lemma holds_base64ToTxn_decodable (b64Txn : value) :
  holds (Mint.base64ToTxn host b64Txn)
    (fun r es =>
       match r with
       | Ok _ => es = [] /\ decodable host b64Txn = true
       | Throw _ =>
           decodable host b64Txn = false /\
           exists err, es = [ConsoleError "Error decoding transaction:" err]
       end).
Proof.
  intros h.
  unfold Mint.base64ToTxn, decodable, try_catch, bind, lift, throw,
    console_error, emit.
  destruct (atob host _) as [s | t]; simpl.
  - destruct (decodeUnsignedTransaction host _); simpl.
    + split; reflexivity.
    + split; [reflexivity | eexists; reflexivity].
  - split; [reflexivity | eexists; reflexivity].
Qed.

Lemma holds_uint8ToBase64_first (u8 : option bytes) :
  holds (Mint.uint8ToBase64 host u8)
    (fun r es =>
       es = [] /\
       match r with
       | Ok _ => exists u, u8 = Some u
       | Throw _ => u8 = None
       end).
Proof.
  intros h. destruct u8 as [u |]; simpl; split; eauto.
Qed.

(** A member can be read off whatever another member could be read off. *)
Lemma get_any_member (v a : value) (k k' : string) :
  get v k = Ok a -> Trace.resolved (get v k') = true.
Proof.
  destruct v; simpl; try reflexivity; try discriminate.
  intros _. destruct (lookup k' _); reflexivity.
Qed.

End ProgressRules.

Ltac use_progress_spec :=
  first [ apply holds_emit | apply holds_lift | apply holds_post_answered
        | apply holds_signTransaction | apply holds_base64ToTxn_decodable
        | apply holds_uint8ToBase64_first ].

Ltac progress_step :=
  eapply holds_after_bind;
  [ use_progress_spec
  | let a := fresh "v" in let es := fresh "es" in let H := fresh "H" in
    intros a es H; cbn beta iota in H; digest; cbn [app]
  | let t := fresh "t" in let es := fresh "es" in let H := fresh "H" in
    intros t es H; cbn beta iota in H; digest; cbn [app] ].

Ltac progress_last_step :=
  eapply holds_after_last;
  [ use_progress_spec
  | let r := fresh "r" in let es := fresh "es" in let H := fresh "H" in
    intros r es H; cbn beta iota in H; digest; cbn [app] ].

(** Runs the [try] block of [handleSubmit] to each of its ends, keeping
    at each end what made the run stop there. *)
Ltac run_mint_steps_to_the_end :=
  unfold Mint.mint_steps, Browser.alert, Browser.console_log;
  repeat progress_step; try progress_last_step.

Section MintProgress.
Import JS Browser Trace Observe Progress Mint.

Lemma usable_mint (host : Host) (data : value) :
  usable host url_mint data = decodes host data "funding_txn".
Proof. reflexivity. Qed.

Lemma usable_create_nft (host : Host) (data : value) :
  usable host url_create_nft data = resolved (get data "asset_id").
Proof. reflexivity. Qed.

Lemma usable_optin (host : Host) (data : value) :
  usable host url_optin data = decodes host data "optin_txn".
Proof. reflexivity. Qed.

Ltac split_all Hall :=
  cbn [forallb] in Hall;
  repeat match type of Hall with
         | _ && _ = true =>
             apply andb_prop in Hall;
             let Hc := fresh "Hc" in destruct Hall as [Hc Hall];
             cbn [completed answered ok json] in Hc;
             try match type of Hc with true = true => clear Hc end
         end.

(** The run stopped short of its last call, and yet every exchange it
    made completed: there is no such run. *)
Ltac no_such_stop Hall :=
  exfalso; clear Hall;
  repeat match goal with
         | Hc : usable _ url_mint _ = true |- _ =>
             rewrite usable_mint in Hc; unfold decodes in Hc
         | Hc : usable _ url_create_nft _ = true |- _ =>
             rewrite usable_create_nft in Hc
         | Hc : usable _ url_optin _ = true |- _ =>
             rewrite usable_optin in Hc; unfold decodes in Hc
         | Hc : usable _ _ _ = true |- _ => clear Hc
         end;
  try match goal with
      | Hg : JS.Ok ?a = get ?v ?k, Ht : JS.Throw _ = get ?v ?k' |- _ =>
          let Hx := fresh in
          pose proof (get_any_member v a k k' (eq_sym Hg)) as Hx;
          rewrite <- Ht in Hx; discriminate Hx
      end;
  repeat match goal with
         | Hg : _ = get ?v ?k, Hc : context [get ?v ?k] |- _ =>
             rewrite <- Hg in Hc
         | Hd : decodable _ ?b = false, Hc : context [decodable _ ?b] |- _ =>
             rewrite Hd in Hc
         | Hn : answered ?r = None, Hc : context [answered ?r] |- _ =>
             rewrite Hn in Hc
         | Hn : nth_error ?l 0 = None |- _ => is_var l; destruct l
         end;
  cbn in *; congruence.

(** A run that passes the guard and in which every exchange completed
    has made the eight calls of the mint flow. *)
Lemma handleSubmit_runs_to_the_end
  (host : Host) (world : World) (s : State) (h : list Event) :
  passes_guard s = true ->
  forallb (completed host) (snd (handleSubmit host world s h)) = true ->
  calls (snd (handleSubmit host world s h)) = oks mint_script.
Proof.
  revert h.
  apply (handleSubmit_run host world
           (fun t => passes_guard s = true ->
                     forallb (completed host) t = true ->
                     calls t = oks mint_script)).
  - intros Hc Hg. unfold passes_guard in Hg. rewrite Hc in Hg.
    discriminate Hg.
  - intros Hb Hg. rewrite Hb in Hg. discriminate Hg.
  - intros w Hw _. run_mint_steps_to_the_end.
    all: intros _ Hall.
    all: try reflexivity.
    all: split_all Hall.
    all: no_such_stop Hall.
Qed.

(** C5: the calls of every run of [handleSubmit] follow the script of the
    mint flow: they are made in the order of the script, each call is
    made only after the one before it was answered well, and nothing is
    called after a call that failed; the same holds of the four requests
    that change the ledger (the funding payment, the asset creation, the
    opt-in and the transfer).  And the run does perform the steps: a run
    that passes the guard stops short of a step only when one of its
    exchanges failed; when every exchange it made completed, it has made
    all eight calls and all four ledger-changing requests, in order, each
    answered well. *)
Theorem handleSubmit_steps_in_order
  (host : Host) (world : World) (s : State) (h : list Event) :
  partial mint_script (calls (snd (handleSubmit host world s h))) /\
  partial (map CFetch ledger_steps)
          (ledger_calls (snd (handleSubmit host world s h))) /\
  (passes_guard s = true ->
   forallb (completed host) (snd (handleSubmit host world s h)) = true ->
   calls (snd (handleSubmit host world s h)) = oks mint_script /\
   ledger_calls (snd (handleSubmit host world s h))
   = oks (map CFetch ledger_steps)).
Proof.
  destruct (handleSubmit_good host world s h) as [Hp _].
  split; [exact Hp |].
  split; [apply (partial_filter changes_ledger) in Hp; exact Hp |].
  intros Hg Hall.
  pose proof (handleSubmit_runs_to_the_end host world s h Hg Hall) as Hc.
  split; [exact Hc |].
  unfold ledger_calls. rewrite Hc. reflexivity.
Qed.

Lemma handleSubmit_steps_in_order_witness :
  passes_guard Platform.form = true /\
  forallb (completed Platform.host)
    (snd (handleSubmit Platform.host Platform.world Platform.form []))
  = true /\
  calls (snd (handleSubmit Platform.host Platform.world Platform.form []))
  = oks mint_script /\
  ledger_calls
    (snd (handleSubmit Platform.host Platform.world Platform.form []))
  = oks (map CFetch ledger_steps).
Proof.
  assert (Hg : passes_guard Platform.form = true) by (vm_compute; reflexivity).
  assert (Hall : forallb (completed Platform.host)
                   (snd (handleSubmit Platform.host Platform.world
                           Platform.form [])) = true)
    by (vm_compute; reflexivity).
  split; [exact Hg |]. split; [exact Hall |].
  exact (proj2 (proj2 (handleSubmit_steps_in_order
                         Platform.host Platform.world Platform.form []))
           Hg Hall).
Defined.

(** A run in which the wallet declines to sign the opt-in: the funding
    and the creation were made and answered well, the run stops at the
    wallet, and neither the opt-in nor the transfer is submitted. *)
Lemma optin_signature_declined :
  let wallet_declines :=
    {| fetch := fetch Platform.world;
       signTransaction := fun h groups =>
         if existsb (fun e => match e with
                              | SignTransaction _ _ => true
                              | _ => false
                              end) h
         then Throw (ErrorObj "Error" "Transaction signing was cancelled")
         else signTransaction Platform.world h groups;
       accountInformation := accountInformation Platform.world;
       connect := connect Platform.world;
       disconnect := disconnect Platform.world;
       connector := connector Platform.world |} in
  let t := events (handleSubmit Platform.host wallet_declines Platform.form) in
  calls t = [(CFetch url_mint, true); (CSign, true);
             (CFetch url_submit_funding, true);
             (CFetch url_create_nft, true);
             (CFetch url_optin, true); (CSign, false)] /\
  ledger_calls t = [(CFetch url_submit_funding, true);
                    (CFetch url_create_nft, true)] /\
  forallb (completed Platform.host) t = false /\
  reported t = false.
Proof. vm_compute. repeat split. Qed.

End MintProgress.

(* ------------------------------------------------------------------ *)
(** *** Mint.tsx: when success is reported *)
(* ------------------------------------------------------------------ *)

Section MintSuccess.
Import JS Browser Trace Observe Progress Mint.






(** A backend that answers with the text [AAAA] where a transaction is
    expected: that is base64 for three zero bytes, which are no
    transaction; the run fails at the first decoding and reports no
    success. *)
Lemma undecodable_funding_transaction :
  let t := events (handleSubmit Platform.host Sample.willing Platform.form) in
  calls t = [(CFetch url_mint, true)] /\
  reported t = false /\
  forallb (completed Platform.host) t = false.
Proof. vm_compute. repeat split. Qed.

End MintSuccess.
